(** * Valuation and projection engine of the stock-analysis dashboard

    A shallow embedding of [src/utils/valuation.ts] (CAGR, per-methodology
    fair value, three-scenario price projections) and of the default
    assumption seeding done by the [PricePredictor] component, together with
    the properties the design document states about them.

    ** Numbers

    A TypeScript [number] is an IEEE-754 double.  The embedding keeps the
    special values a double can take (NaN, the two infinities, the negative
    zero) and the rules that produce them (division by zero, 0/0,
    infinity minus infinity, ...), and idealises the finite values as exact
    rationals: rounding and overflow are not modelled.  Decimal literals of
    the source ([1.3], [1.2], [0.25], [0.7]) are the rationals they denote.

    A property that rests on this idealisation is marked "in exact
    arithmetic": it is a statement about the formulas the code evaluates,
    and on doubles it is subject to rounding and to the overflow of
    intermediate results.  The properties that are not marked compare
    expressions evaluated in the same order, or depend only on the special
    values, on signs and on the shape of the data. *)

From Stdlib Require Import QArith Qabs Qminmax Qpower ZArith List Bool Lia Lqa.
Import ListNotations.

Open Scope Q_scope.

(** ** The numeric domain *)

Module Number.

(** [Fin q] is the finite value [q]; [Fin q] with [q == 0] is the positive
    zero and [NZero] the negative one. *)
Inductive number : Type :=
| NaN
| PInf
| NInf
| NZero
| Fin (q : Q).

Definition Qlt_bool (p q : Q) : bool := negb (Qle_bool q p).

Definition is_nan (x : number) : bool :=
  match x with NaN => true | _ => false end.

Definition is_zero (x : number) : bool :=
  match x with
  | NZero => true
  | Fin q => Qeq_bool q 0
  | _ => false
  end.

Definition is_finite (x : number) : bool :=
  match x with
  | NZero | Fin _ => true
  | _ => false
  end.

(** The sign bit: [true] for negative values, the negative infinity and the
    negative zero. *)
Definition sign (x : number) : bool :=
  match x with
  | NInf | NZero => true
  | Fin q => Qlt_bool q 0
  | _ => false
  end.

Definition zero_of (negative : bool) : number :=
  if negative then NZero else Fin 0.

Definition inf_of (negative : bool) : number :=
  if negative then NInf else PInf.

(** The rational a finite number stands for (0 for both zeros). *)
Definition val (x : number) : Q :=
  match x with
  | Fin q => q
  | _ => 0
  end.

(** Unary minus. *)
Definition neg (x : number) : number :=
  match x with
  | NaN => NaN
  | PInf => NInf
  | NInf => PInf
  | NZero => Fin 0
  | Fin q => if Qeq_bool q 0 then NZero else Fin (- q)
  end.

(** [x + y].  An exact zero sum of two non-zero values is the positive zero,
    as under round-to-nearest.  The sum of two finite values is the exact
    rational sum: it is neither rounded nor does it overflow to an
    infinity. *)
Definition add (x y : number) : number :=
  match x, y with
  | NaN, _ | _, NaN => NaN
  | PInf, NInf | NInf, PInf => NaN
  | PInf, _ | _, PInf => PInf
  | NInf, _ | _, NInf => NInf
  | NZero, _ => y
  | _, NZero => x
  | Fin p, Fin q => Fin (p + q)
  end.

(** [x - y] is [x + (-y)]. *)
Definition sub (x y : number) : number := add x (neg y).

(** [x * y].  The product of two finite values is the exact rational
    product: it is not rounded, it does not overflow to an infinity and a
    product of non-zero values does not underflow to a zero. *)
Definition mul (x y : number) : number :=
  let s := xorb (sign x) (sign y) in
  match x, y with
  | NaN, _ | _, NaN => NaN
  | (PInf | NInf), _ => if is_zero y then NaN else inf_of s
  | _, (PInf | NInf) => if is_zero x then NaN else inf_of s
  | Fin p, Fin q => if is_zero x || is_zero y then zero_of s else Fin (p * q)
  | _, _ => zero_of s
  end.

(** [x / y]: a non-zero value over a zero is an infinity, 0/0 and
    infinity/infinity are NaN; nothing is raised.  The quotient of two finite
    values by a non-zero one is the exact rational quotient, without
    rounding, overflow or underflow. *)
Definition div (x y : number) : number :=
  let s := xorb (sign x) (sign y) in
  match x, y with
  | NaN, _ | _, NaN => NaN
  | (PInf | NInf), (PInf | NInf) => NaN
  | (PInf | NInf), _ => inf_of s
  | _, (PInf | NInf) => zero_of s
  | Fin p, Fin q =>
      if is_zero y then (if is_zero x then NaN else inf_of s)
      else if is_zero x then zero_of s
      else Fin (p / q)
  | Fin _, NZero => if is_zero x then NaN else inf_of s
  | NZero, Fin _ => if is_zero y then NaN else zero_of s
  | NZero, NZero => NaN
  end.

(** [x < y] and [x <= y]; every comparison with NaN is false. *)
Definition ltb (x y : number) : bool :=
  match x, y with
  | NaN, _ | _, NaN => false
  | _, NInf => false
  | NInf, _ => true
  | PInf, _ => false
  | _, PInf => true
  | _, _ => Qlt_bool (val x) (val y)
  end.

Definition leb (x y : number) : bool :=
  match x, y with
  | NaN, _ | _, NaN => false
  | NInf, _ => true
  | _, NInf => false
  | _, PInf => true
  | PInf, _ => false
  | _, _ => Qle_bool (val x) (val y)
  end.

(** [Math.abs]. *)
Definition Math_abs (x : number) : number :=
  match x with
  | NaN => NaN
  | PInf | NInf => PInf
  | NZero => Fin 0
  | Fin q => Fin (Qabs q)
  end.

(** [Math.max] of two arguments: NaN if either is NaN, and the positive zero
    is larger than the negative one. *)
Definition Math_max (a b : number) : number :=
  if is_nan a || is_nan b then NaN
  else if ltb a b then b
  else if ltb b a then a
  else if sign a then b else a.

(** Truthiness of a number: NaN and the zeros are falsy. *)
Definition truthy (x : number) : bool := negb (is_nan x || is_zero x).

(** [x || d] on a [number | null]. *)
Definition or_else (x : option number) (d : number) : number :=
  match x with
  | Some v => if truthy v then v else d
  | None => d
  end.

(** [x ?? d] on a [number | null]. *)
Definition nullish (x : option number) (d : number) : number :=
  match x with
  | Some v => v
  | None => d
  end.

(** [!x] on a [number | null | undefined]. *)
Definition not_ (x : option number) : bool :=
  match x with
  | Some v => negb (truthy v)
  | None => true
  end.

Definition of_Z (z : Z) : number := Fin (inject_Z z).
Definition of_nat (n : nat) : number := of_Z (Z.of_nat n).

(** [x] multiplied by itself [n] times, each product being the exact one of
    [mul]. *)
Fixpoint pow_nat (x : number) (n : nat) : number :=
  match n with
  | O => Fin 1
  | S k => mul x (pow_nat x k)
  end.

(** The integer a number stands for, when it stands for one. *)
Definition as_integer (y : number) : option Z :=
  match y with
  | NZero => Some 0%Z
  | Fin q =>
      if (Qnum q mod Zpos (Qden q) =? 0)%Z
      then Some (Qnum q / Zpos (Qden q))%Z
      else None
  | _ => None
  end.

(** [Math.pow].  For an integral exponent the result is the exact power (the
    reciprocal of it for a negative exponent), which also yields the special
    cases ECMAScript lists for zero and infinite bases.  For every other
    exponent the result is "implementation-approximated"; it is left to
    [pow_real], which the development never inspects. *)
Definition Math_pow (pow_real : number -> number -> number)
    (x y : number) : number :=
  match as_integer y with
  | Some n =>
      if (0 <=? n)%Z then pow_nat x (Z.to_nat n)
      else div (Fin 1) (pow_nat x (Z.to_nat (- n)))
  | None => pow_real x y
  end.

(** The finite numbers: both zeros and the non-zero rationals. *)
Definition finite (x : number) : Prop := is_finite x = true.

(** Numeric equality of two results: the same special value, or finite
    values that are equal as rationals. *)
Definition number_eq (x y : number) : Prop :=
  match x, y with
  | NaN, NaN | PInf, PInf | NInf, NInf | NZero, NZero => True
  | Fin p, Fin q => p == q
  | _, _ => False
  end.

End Number.
Import Number.

Declare Scope num_scope.
Delimit Scope num_scope with num.
Bind Scope num_scope with number.
Infix "+" := add : num_scope.
Infix "-" := sub : num_scope.
Infix "*" := mul : num_scope.
Infix "/" := div : num_scope.
Infix "<=?" := leb : num_scope.
Infix "<?" := ltb : num_scope.

(** ** Data model ([src/types/stock.ts]) *)

(** Every field of the snapshot is [number | null]. *)
Record FinancialMetrics : Type := {
  peRatio : option number;
  forwardPE : option number;
  pegRatio : option number;
  priceToSales : option number;
  priceToBook : option number;
  evToEbitda : option number;
  evToEbit : option number;
  evToRevenue : option number;
  grossMargin : option number;
  operatingMargin : option number;
  netMargin : option number;
  roe : option number;
  roa : option number;
  revenue : option number;
  netIncome : option number;
  ebitda : option number;
  ebit : option number;
  eps : option number;
  freeCashFlow : option number;
  totalCash : option number;
  totalDebt : option number;
  netDebt : option number;
  sharesOutstanding : option number;
  enterpriseValue : option number
}.

(** The [{ bear, base, bull }] triples of [ProjectionAssumptions]. *)
Record Scenarios : Type := {
  bear : number;
  base : number;
  bull : number
}.

Inductive MultipleType : Type :=
| pe
| evEbit
| evEbitda
| evRevenue
| evFcf.

(** [years] is the projection horizon, a count of years (the component
    fixes it at 5), hence a natural number here. *)
Record ProjectionAssumptions : Type := {
  revenueGrowth : Scenarios;
  targetMargin : Scenarios;
  exitMultiple : Scenarios;
  multipleType : MultipleType;
  dilutionRate : number;
  years : nat
}.

(** [year] is a calendar year ([new Date().getFullYear()] plus the loop
    counter), hence an integer here. *)
Record PriceProjection : Type := {
  year : Z;
  bearCase : number;
  baseCase : number;
  bullCase : number
}.

(** ** The valuation engine ([src/utils/valuation.ts]) *)

Module Valuation.

Local Open Scope num_scope.

(** The switch of the source has a [default: price = 0] branch; with
    [multipleType] typed by the five-way union it is never taken. *)
Definition calculateFairValuePrice
    (currentRevenue sharesOutstanding targetMargin exitMultiple : number)
    (multipleType : MultipleType) (metrics : FinancialMetrics) : number :=
  let price :=
    match multipleType with
    | pe =>
        (currentRevenue * targetMargin * exitMultiple) / sharesOutstanding
    | evEbit =>
        let operatingMargin := targetMargin * Fin (13 # 10) in
        let equityValue :=
          currentRevenue * operatingMargin * exitMultiple
          - or_else (netDebt metrics) (Fin 0) in
        equityValue / sharesOutstanding
    | evEbitda =>
        let operatingMargin := targetMargin * Fin (13 # 10) in
        let equityValue :=
          currentRevenue * operatingMargin * Fin (12 # 10) * exitMultiple
          - or_else (netDebt metrics) (Fin 0) in
        equityValue / sharesOutstanding
    | evRevenue =>
        let equityValue :=
          currentRevenue * exitMultiple - or_else (netDebt metrics) (Fin 0) in
        equityValue / sharesOutstanding
    | evFcf =>
        let fcfMargin := targetMargin in
        let equityValue :=
          currentRevenue * fcfMargin * exitMultiple
          - or_else (netDebt metrics) (Fin 0) in
        equityValue / sharesOutstanding
    end in
  Math_max (Fin 0) price.

Section WithPow.

(** [Math.pow] at non-integral exponents. *)
Variable pow_real : number -> number -> number.

Definition calculateCAGR (start end_ : option number) (years : number)
    : option number :=
  (* past the guard [start] and [end] are present; [nullish _ 0] only
     unwraps them *)
  if not_ start || not_ end_ || (years <=? Fin 0)
     || (nullish start (Fin 0) <=? Fin 0)
  then None
  else
    Some ((Math_pow pow_real
             (nullish end_ (Fin 0) / nullish start (Fin 0))
             (Fin 1 / years)
           - Fin 1) * Fin 100).

(** The two local constants every branch of [calculateScenarioPrice]
    starts from. *)
Definition projectedRevenue (currentRevenue growthRate years : number)
    : number :=
  currentRevenue * Math_pow pow_real (Fin 1 + growthRate) years.

Definition projectedShares (sharesOutstanding dilutionRate years : number)
    : number :=
  sharesOutstanding * Math_pow pow_real (Fin 1 + dilutionRate) years.

Definition calculateScenarioPrice
    (currentRevenue sharesOutstanding growthRate targetMargin exitMultiple
       dilutionRate years : number)
    (multipleType : MultipleType) (metrics : FinancialMetrics) : number :=
  let projectedRevenue := projectedRevenue currentRevenue growthRate years in
  let projectedShares :=
    projectedShares sharesOutstanding dilutionRate years in
  let price :=
    match multipleType with
    | pe =>
        let projectedNetIncome := projectedRevenue * targetMargin in
        (projectedNetIncome * exitMultiple) / projectedShares
    | evEbit =>
        let operatingMargin := targetMargin * Fin (13 # 10) in
        let projectedEbit := projectedRevenue * operatingMargin in
        let equityValue :=
          projectedEbit * exitMultiple - or_else (netDebt metrics) (Fin 0) in
        equityValue / projectedShares
    | evEbitda =>
        let operatingMargin := targetMargin * Fin (13 # 10) in
        let projectedEbitda :=
          projectedRevenue * operatingMargin * Fin (12 # 10) in
        let equityValue :=
          projectedEbitda * exitMultiple
          - or_else (netDebt metrics) (Fin 0) in
        equityValue / projectedShares
    | evRevenue =>
        let equityValue :=
          projectedRevenue * exitMultiple
          - or_else (netDebt metrics) (Fin 0) in
        equityValue / projectedShares
    | evFcf =>
        let projectedFcf := projectedRevenue * targetMargin in
        let equityValue :=
          projectedFcf * exitMultiple - or_else (netDebt metrics) (Fin 0) in
        equityValue / projectedShares
    end in
  Math_max (Fin 0) price.

(** The record pushed at iteration [i] of the loop. *)
Definition projection_at (metrics : FinancialMetrics)
    (assumptions : ProjectionAssumptions) (currentYear : Z)
    (currentRevenue sharesOutstanding : number) (i : nat)
    : PriceProjection :=
  let scenario (growth margin multiple : number) :=
    calculateScenarioPrice
      currentRevenue sharesOutstanding
      (growth / Fin 100) (margin / Fin 100)
      multiple (dilutionRate assumptions / Fin 100)
      (of_nat i) (multipleType assumptions) metrics in
  {| year := currentYear + Z.of_nat i;
     bearCase := scenario (bear (revenueGrowth assumptions))
                          (bear (targetMargin assumptions))
                          (bear (exitMultiple assumptions));
     baseCase := scenario (base (revenueGrowth assumptions))
                          (base (targetMargin assumptions))
                          (base (exitMultiple assumptions));
     bullCase := scenario (bull (revenueGrowth assumptions))
                          (bull (targetMargin assumptions))
                          (bull (exitMultiple assumptions)) |}.

(** [for (let i = ...; i <= assumptions.years; i++) projections.push(...)]:
    [remaining] iterations are left, the next one is iteration [i], and
    [projections] is the array built so far. *)
Fixpoint projections_loop (metrics : FinancialMetrics)
    (assumptions : ProjectionAssumptions) (currentYear : Z)
    (currentRevenue sharesOutstanding : number)
    (remaining i : nat) (projections : list PriceProjection)
    : list PriceProjection :=
  match remaining with
  | O => projections
  | S r =>
      projections_loop metrics assumptions currentYear
        currentRevenue sharesOutstanding r (S i)
        (projections
           ++ [projection_at metrics assumptions currentYear
                 currentRevenue sharesOutstanding i])
  end.

Definition calculateProjections (metrics : FinancialMetrics)
    (assumptions : ProjectionAssumptions) (currentYear : Z)
    : list PriceProjection :=
  let currentRevenue := or_else (revenue metrics) (Fin 0) in
  let sharesOutstanding := or_else (sharesOutstanding metrics) (Fin 1) in
  projections_loop metrics assumptions currentYear
    currentRevenue sharesOutstanding (years assumptions) 1%nat [].

End WithPow.

End Valuation.

(** ** Default assumptions ([PricePredictor]) *)

Module PricePredictor.

Local Open Scope num_scope.

Definition currentMargin (metrics : FinancialMetrics) : number :=
  nullish (netMargin metrics) (Fin 10).

Definition marginSpread (metrics : FinancialMetrics) : number :=
  Math_max (Math_abs (currentMargin metrics) * Fin (25 # 100)) (Fin 5).

(** The initial state of [useState<ProjectionAssumptions>]. *)
Definition initialAssumptions (metrics : FinancialMetrics)
    : ProjectionAssumptions :=
  let currentMultiples_pe := or_else (peRatio metrics) (Fin 20) in
  {| revenueGrowth := {| bear := Fin 5; base := Fin 10; bull := Fin 18 |};
     targetMargin :=
       {| bear := currentMargin metrics - marginSpread metrics;
          base := currentMargin metrics;
          bull := currentMargin metrics + marginSpread metrics |};
     exitMultiple :=
       {| bear := currentMultiples_pe * Fin (7 # 10);
          base := currentMultiples_pe;
          bull := currentMultiples_pe * Fin (13 # 10) |};
     multipleType := pe;
     dilutionRate := Fin 1;
     years := 5 |}.

End PricePredictor.

(** ** Predicates on inputs *)

Definition finite_or_null (x : option number) : Prop :=
  match x with
  | Some v => finite v
  | None => True
  end.

Definition null_or_zero (x : option number) : Prop :=
  x = None \/ exists z, x = Some z /\ is_zero z = true.

Definition nonneg (x : number) : Prop := leb (Fin 0) x = true.

Definition finite_scenarios (s : Scenarios) : Prop :=
  finite (bear s) /\ finite (base s) /\ finite (bull s).

Definition finite_assumptions (a : ProjectionAssumptions) : Prop :=
  finite_scenarios (revenueGrowth a)
  /\ finite_scenarios (targetMargin a)
  /\ finite_scenarios (exitMultiple a)
  /\ finite (dilutionRate a).

(** ** Reference formulas

    The definitions of this part are written from the statements the
    properties below are about, not from the code; the properties compare
    the code with them. *)

(** *** Fair value: the formula table of the design document *)

Module FairValueSpec.

Local Open Scope num_scope.

(** The formula table of the design document, as it is worded there;
    [netDebt] is the snapshot's net debt, taken as 0 when it is null. *)
Definition netDebt_or_0 (metrics : FinancialMetrics) : number :=
  match netDebt metrics with
  | None => Fin 0
  | Some d => d
  end.

Definition equityValue (methodology : MultipleType)
    (revenue targetMargin exitMultiple netDebt : number) : number :=
  match methodology with
  | pe => revenue * targetMargin * exitMultiple
  | evEbit => revenue * (targetMargin * Fin (13 # 10)) * exitMultiple - netDebt
  | evEbitda =>
      revenue * (targetMargin * Fin (13 # 10)) * Fin (12 # 10) * exitMultiple
      - netDebt
  | evRevenue => revenue * exitMultiple - netDebt
  | evFcf => revenue * targetMargin * exitMultiple - netDebt
  end.

Definition fairValuePrice
    (revenue sharesOutstanding targetMargin exitMultiple : number)
    (methodology : MultipleType) (metrics : FinancialMetrics) : number :=
  Math_max (Fin 0)
    (equityValue methodology revenue targetMargin exitMultiple
       (netDebt_or_0 metrics)
     / sharesOutstanding).

End FairValueSpec.

(** *** CAGR: the undefined cases and the formula *)

Module CAGRSpec.

Local Open Scope num_scope.

(** The design document lists a non-positive start price, a missing end
    price and a non-positive number of years; the cases below are wider.
    The result is undefined when the start price is missing, NaN, zero or
    negative, when the end price is missing, NaN or zero, or when the number
    of years is zero or negative. *)
Definition undefined (start end_ : option number) (years : number) : bool :=
  match start, end_ with
  | Some s, Some e =>
      is_nan s || is_zero s || (s <=? Fin 0)
      || is_nan e || is_zero e
      || (years <=? Fin 0)
  | _, _ => true
  end.

(** [((end / start)^(1 / years) - 1) * 100] *)
Definition formula (pow_real : number -> number -> number)
    (s e years : number) : number :=
  (Math_pow pow_real (e / s) (Fin 1 / years) - Fin 1) * Fin 100.

Definition CAGR (pow_real : number -> number -> number)
    (start end_ : option number) (years : number) : option number :=
  match start, end_ with
  | Some s, Some e =>
      if undefined start end_ years then None
      else Some (formula pow_real s e years)
  | _, _ => None
  end.

End CAGRSpec.

(** ** Sample inputs used by the worked instances *)

Definition metrics_with (netMargin_ revenue_ netDebt_ sharesOutstanding_
    : option number) : FinancialMetrics :=
  {| peRatio := None; forwardPE := None; pegRatio := None;
     priceToSales := None; priceToBook := None; evToEbitda := None;
     evToEbit := None; evToRevenue := None; grossMargin := None;
     operatingMargin := None; netMargin := netMargin_; roe := None;
     roa := None; revenue := revenue_; netIncome := None; ebitda := None;
     ebit := None; eps := None; freeCashFlow := None; totalCash := None;
     totalDebt := None; netDebt := netDebt_;
     sharesOutstanding := sharesOutstanding_; enterpriseValue := None |}.

(** Nothing known about the company. *)
Definition metrics_unknown : FinancialMetrics :=
  metrics_with None None None None.

(** Two snapshots that differ in every field the engine does not read. *)
Definition metrics_sample_a : FinancialMetrics :=
  metrics_with None (Some (Fin 1000)) (Some (Fin 200)) (Some (Fin 100)).

Definition metrics_sample_b : FinancialMetrics :=
  {| peRatio := Some (Fin 25); forwardPE := Some (Fin 22);
     pegRatio := Some (Fin 2); priceToSales := Some (Fin 5);
     priceToBook := Some (Fin 8); evToEbitda := Some (Fin 15);
     evToEbit := Some (Fin 18); evToRevenue := Some (Fin 4);
     grossMargin := Some (Fin 40); operatingMargin := Some (Fin 25);
     netMargin := Some (Fin 20); roe := Some (Fin 30); roa := Some (Fin 12);
     revenue := Some (Fin 1000); netIncome := Some (Fin 200);
     ebitda := Some (Fin 300); ebit := Some (Fin 250); eps := Some (Fin 2);
     freeCashFlow := Some (Fin 180); totalCash := Some (Fin 100);
     totalDebt := Some (Fin 300); netDebt := Some (Fin 200);
     sharesOutstanding := Some (Fin 100);
     enterpriseValue := Some (Fin 5000) |}.


(** The default assumptions with every share bought back each year. *)
Definition assumptions_full_buyback : ProjectionAssumptions :=
  {| revenueGrowth := {| bear := Fin 5; base := Fin 10; bull := Fin 18 |};
     targetMargin := {| bear := Fin 5; base := Fin 10; bull := Fin 15 |};
     exitMultiple := {| bear := Fin 14; base := Fin 20; bull := Fin 26 |};
     multipleType := pe;
     dilutionRate := Fin (-100);
     years := 5 |}.

(** A loss-making company: the negative equity value of every scenario is
    clamped to the price 0. *)
Definition assumptions_loss_making : ProjectionAssumptions :=
  {| revenueGrowth := {| bear := Fin 5; base := Fin 10; bull := Fin 18 |};
     targetMargin :=
       {| bear := Fin (-15); base := Fin (-10); bull := Fin (-5) |};
     exitMultiple := {| bear := Fin 14; base := Fin 20; bull := Fin 26 |};
     multipleType := evEbitda;
     dilutionRate := Fin 1;
     years := 5 |}.

(** ** Further idioms on nullable numbers *)

(** Truthiness of a [number | null]. *)
Definition truthy_opt (x : option number) : bool := negb (not_ x).

(** A [number | null] used as an operand: null is read as 0. *)
Definition to_number (x : option number) : number := nullish x (Fin 0).

(** [a && b ? a / b : fallback]; past the test both are present. *)
Definition ratio_or (a b fallback : option number) : option number :=
  if truthy_opt a && truthy_opt b
  then Some (div (to_number a) (to_number b))
  else fallback.

(** [Math.min] of two arguments: NaN if either is NaN, and the negative zero
    is smaller than the positive one. *)
Definition Math_min (a b : number) : number :=
  if is_nan a || is_nan b then NaN
  else if ltb a b then a
  else if ltb b a then b
  else if sign a then a else b.

(** ** The rest of the predictor component ([PricePredictor]) *)

Module PredictorState.

Local Open Scope num_scope.

Import Valuation PricePredictor.

(** [metrics.enterpriseValue ?? (marketCap != null && metrics.netDebt != null
    ? marketCap + metrics.netDebt : null)] *)
Definition ev (metrics : FinancialMetrics) (marketCap : option number)
    : option number :=
  match enterpriseValue metrics with
  | Some v => Some v
  | None =>
      match marketCap, netDebt metrics with
      | Some cap, Some debt => Some (cap + debt)
      | _, _ => None
      end
  end.

Definition computedEvToEbit (metrics : FinancialMetrics)
    (marketCap : option number) : option number :=
  ratio_or (ev metrics marketCap) (ebit metrics) (evToEbit metrics).

Definition computedEvToEbitda (metrics : FinancialMetrics)
    (marketCap : option number) : option number :=
  ratio_or (ev metrics marketCap) (ebitda metrics) (evToEbitda metrics).

Definition computedEvToRevenue (metrics : FinancialMetrics)
    (marketCap : option number) : option number :=
  ratio_or (ev metrics marketCap) (revenue metrics) (evToRevenue metrics).

Definition computedEvToFcf (metrics : FinancialMetrics)
    (marketCap : option number) : option number :=
  ratio_or (ev metrics marketCap) (freeCashFlow metrics) None.

(** The [currentMultiples] object, indexed by methodology. *)
Definition currentMultiples (metrics : FinancialMetrics)
    (marketCap : option number) (type : MultipleType) : number :=
  match type with
  | pe => or_else (peRatio metrics) (Fin 20)
  | evEbit => or_else (computedEvToEbit metrics marketCap) (Fin 15)
  | evEbitda => or_else (computedEvToEbitda metrics marketCap) (Fin 12)
  | evRevenue => or_else (computedEvToRevenue metrics marketCap) (Fin 3)
  | evFcf => or_else (computedEvToFcf metrics marketCap) (Fin 20)
  end.

(** The [onClick] handler of a methodology button. *)
Definition selectMethodology (metrics : FinancialMetrics)
    (marketCap : option number) (type : MultipleType)
    (prev : ProjectionAssumptions) : ProjectionAssumptions :=
  {| revenueGrowth := revenueGrowth prev;
     targetMargin := targetMargin prev;
     exitMultiple :=
       {| bear := currentMultiples metrics marketCap type * Fin (7 # 10);
          base := currentMultiples metrics marketCap type;
          bull := currentMultiples metrics marketCap type * Fin (13 # 10) |};
     multipleType := type;
     dilutionRate := dilutionRate prev;
     years := years prev |}.

(** The keys ['bear' | 'base' | 'bull'] and
    ['revenueGrowth' | 'targetMargin' | 'exitMultiple']. *)
Inductive ScenarioKey : Type := Bear | Base | Bull.
Inductive FieldKey : Type := RevenueGrowth | TargetMargin | ExitMultiple.

(** [s[key]] and [{ ...s, [key]: value }] *)
Definition get_scenario (key : ScenarioKey) (s : Scenarios) : number :=
  match key with
  | Bear => bear s
  | Base => base s
  | Bull => bull s
  end.

Definition set_scenario (key : ScenarioKey) (value : number) (s : Scenarios)
    : Scenarios :=
  match key with
  | Bear => {| bear := value; base := base s; bull := bull s |}
  | Base => {| bear := bear s; base := value; bull := bull s |}
  | Bull => {| bear := bear s; base := base s; bull := value |}
  end.

Definition get_field (field : FieldKey) (a : ProjectionAssumptions)
    : Scenarios :=
  match field with
  | RevenueGrowth => revenueGrowth a
  | TargetMargin => targetMargin a
  | ExitMultiple => exitMultiple a
  end.

Definition set_field (field : FieldKey) (s : Scenarios)
    (a : ProjectionAssumptions) : ProjectionAssumptions :=
  match field with
  | RevenueGrowth =>
      {| revenueGrowth := s; targetMargin := targetMargin a;
         exitMultiple := exitMultiple a; multipleType := multipleType a;
         dilutionRate := dilutionRate a; years := years a |}
  | TargetMargin =>
      {| revenueGrowth := revenueGrowth a; targetMargin := s;
         exitMultiple := exitMultiple a; multipleType := multipleType a;
         dilutionRate := dilutionRate a; years := years a |}
  | ExitMultiple =>
      {| revenueGrowth := revenueGrowth a; targetMargin := targetMargin a;
         exitMultiple := s; multipleType := multipleType a;
         dilutionRate := dilutionRate a; years := years a |}
  end.

(** [{ ...prev, [field]: { ...prev[field], [scenario]: value } }] *)
Definition updateAssumption (scenario : ScenarioKey) (field : FieldKey)
    (value : number) (prev : ProjectionAssumptions) : ProjectionAssumptions :=
  set_field field (set_scenario scenario value (get_field field prev)) prev.

(** [fairValueToday]: the fair value of each scenario on the current
    (unprojected) revenue and shares. *)
Definition fairValueToday (metrics : FinancialMetrics)
    (assumptions : ProjectionAssumptions) : Scenarios :=
  let currentRevenue := or_else (revenue metrics) (Fin 0) in
  let sharesOutstanding := or_else (sharesOutstanding metrics) (Fin 1) in
  let fv (targetMargin exitMultiple : number) :=
    calculateFairValuePrice
      currentRevenue sharesOutstanding
      (targetMargin / Fin 100) exitMultiple
      (multipleType assumptions) metrics in
  {| bear := fv (bear (targetMargin assumptions))
                (bear (exitMultiple assumptions));
     base := fv (base (targetMargin assumptions))
                (base (exitMultiple assumptions));
     bull := fv (bull (targetMargin assumptions))
                (bull (exitMultiple assumptions)) |}.

(** A point of the chart.  The source renders the year with [toString()];
    the point keeps the year itself. *)
Record ChartPoint : Type := {
  point_year : Z;
  point_Bear : number;
  point_Base : number;
  point_Bull : number
}.

Section WithPow.

Variable pow_real : number -> number -> number.

Definition chartData (projections : list PriceProjection)
    : list ChartPoint :=
  map (fun p =>
         {| point_year := year p; point_Bear := bearCase p;
            point_Base := baseCase p; point_Bull := bullCase p |})
      projections.

(** [[{ year: currentYear, ...fairValueToday }, ...chartData]] *)
Definition fullChartData (metrics : FinancialMetrics)
    (assumptions : ProjectionAssumptions) (currentYear : Z)
    : list ChartPoint :=
  {| point_year := currentYear;
     point_Bear := bear (fairValueToday metrics assumptions);
     point_Base := base (fairValueToday metrics assumptions);
     point_Bull := bull (fairValueToday metrics assumptions) |}
  :: chartData (calculateProjections pow_real metrics assumptions
                  currentYear).

(** [projections[projections.length - 1]]: undefined for an empty array. *)
Definition finalYear (projections : list PriceProjection)
    : option PriceProjection :=
  match projections with
  | [] => None
  | _ :: _ => nth_error projections (length projections - 1)
  end.

Definition impliedReturns (currentPrice : number)
    (metrics : FinancialMetrics) (assumptions : ProjectionAssumptions)
    (currentYear : Z) : Scenarios :=
  let projections :=
    calculateProjections pow_real metrics assumptions currentYear in
  let cagr (final : number) :=
    nullish
      (calculateCAGR pow_real (Some currentPrice) (Some final)
         (of_nat (years assumptions)))
      (Fin 0) in
  match finalYear projections with
  | Some p =>
      {| bear := cagr (bearCase p);
         base := cagr (baseCase p);
         bull := cagr (bullCase p) |}
  | None => {| bear := Fin 0; base := Fin 0; bull := Fin 0 |}
  end.

End WithPow.

End PredictorState.

(** ** Enterprise-value multiples of the valuation tab
       ([src/components/ValuationMetrics.tsx]) *)

Module ValuationMetrics.

Local Open Scope num_scope.

Definition enterpriseValue (metrics : FinancialMetrics)
    (marketCap : option number) : option number :=
  match enterpriseValue metrics with
  | Some v => Some v
  | None =>
      match marketCap, netDebt metrics with
      | Some cap, Some debt => Some (cap + debt)
      | _, _ => None
      end
  end.

Definition evToEbit (metrics : FinancialMetrics)
    (marketCap : option number) : option number :=
  ratio_or (enterpriseValue metrics marketCap) (ebit metrics)
    (evToEbit metrics).

Definition evToEbitda (metrics : FinancialMetrics)
    (marketCap : option number) : option number :=
  ratio_or (enterpriseValue metrics marketCap) (ebitda metrics)
    (evToEbitda metrics).

Definition evToRevenue (metrics : FinancialMetrics)
    (marketCap : option number) : option number :=
  ratio_or (enterpriseValue metrics marketCap) (revenue metrics)
    (evToRevenue metrics).


End ValuationMetrics.

(** ** The margin card ([MarginCard]) *)

Module MarginCard.

Local Open Scope num_scope.

(** [current && tenYearAgo ? current - tenYearAgo : 0] *)
Definition change (current tenYearAgo : option number) : number :=
  if truthy_opt current && truthy_opt tenYearAgo
  then to_number current - to_number tenYearAgo
  else Fin 0.

(** [change >= 0] *)
Definition isPositive (current tenYearAgo : option number) : bool :=
  Fin 0 <=? change current tenYearAgo.

End MarginCard.

(** ** Helpers of the financial overview
       ([src/components/FinancialOverview.tsx]) *)

Module FinancialOverview.

Local Open Scope num_scope.

(** [MarginBar]: the width of the bar, in percent. *)
Definition MarginBar_width (value : number) : number :=
  Math_max (Fin 0) (Math_min (Fin 100) value).

(** [values.filter(v => v !== null && !isNaN(v))] *)
Definition valid_values (values : list (option number)) : list number :=
  flat_map (fun v =>
              match v with
              | Some x => if is_nan x then [] else [x]
              | None => []
              end)
           values.

Definition calculateAverage (values : list (option number)) : number :=
  let valid := valid_values values in
  match valid with
  | [] => Fin 0
  | _ :: _ => fold_left add valid (Fin 0) / of_nat (length valid)
  end.

(** The growth columns of [dataWithGrowth]:
    [prevItem && prevItem.revenue
       ? ((item.revenue! - prevItem.revenue) / prevItem.revenue) * 100
       : null],
    where [prev] is the field of the previous item, [None] when there is no
    previous item, and a null current value is read as 0 by the
    subtraction. *)
Definition growth (prevItem : option (option number))
    (current : option number) : option number :=
  match prevItem with
  | Some prev =>
      if truthy_opt prev
      then Some (((to_number current - to_number prev) / to_number prev)
                 * Fin 100)
      else None
  | None => None
  end.

(** [displayData.map((item, index) => ... displayData[index - 1] ...)],
    on the column of one field. *)
Definition growth_column (column : list (option number))
    : list (option number) :=
  map (fun '(index, current) =>
         growth (match index with
                 | O => None
                 | S previous => nth_error column previous
                 end)
                current)
      (combine (seq 0 (length column)) column).

End FinancialOverview.

(** ** Normalisation of the upstream snapshot
       ([YahooFinanceProvider.getFinancialMetrics]) *)

Module YahooFinanceProvider.

Local Open Scope num_scope.

(** A value of the upstream response: a number, or anything else (null,
    undefined, a string, an object). *)
Inductive raw : Type :=
| RawNumber (x : number)
| RawOther.

(** [v != null && typeof v === 'number' && isFinite(v) ? v : null] *)
Definition num (v : raw) : option number :=
  match v with
  | RawNumber x => if is_finite x then Some x else None
  | RawOther => None
  end.

Definition pct (v : raw) : option number :=
  match num v with
  | Some n => Some (n * Fin 100)
  | None => None
  end.

(** [a ?? b] on nullable numbers. *)
Definition orelse_opt (a b : option number) : option number :=
  match a with
  | Some _ => a
  | None => b
  end.

(** The fields read from the three sections of the response. *)
Record DefaultKeyStatistics : Type := {
  stats_pegRatio : raw;
  stats_priceToBook : raw;
  stats_enterpriseToEbitda : raw;
  stats_enterpriseToRevenue : raw;
  stats_netIncomeToCommon : raw;
  stats_trailingEps : raw;
  stats_sharesOutstanding : raw;
  stats_enterpriseValue : raw
}.

Record FinancialData : Type := {
  fin_totalDebt : raw;
  fin_totalCash : raw;
  fin_totalRevenue : raw;
  fin_operatingMargins : raw;
  fin_grossMargins : raw;
  fin_profitMargins : raw;
  fin_returnOnEquity : raw;
  fin_returnOnAssets : raw;
  fin_netIncomeToCommon : raw;
  fin_ebitda : raw;
  fin_freeCashflow : raw
}.

Record SummaryDetail : Type := {
  detail_trailingPE : raw;
  detail_forwardPE : raw;
  detail_priceToSalesTrailing12Months : raw
}.

(** [section?.field]: undefined when the section is missing. *)
Definition field {A : Type} (section : option A) (get : A -> raw) : raw :=
  match section with
  | Some s => get s
  | None => RawOther
  end.

(** The part of [getFinancialMetrics] after the response has arrived. *)
Definition getFinancialMetrics (stats : option DefaultKeyStatistics)
    (fin : option FinancialData) (detail : option SummaryDetail)
    : option FinancialMetrics :=
  match stats, fin with
  | None, None => None
  | _, _ =>
      let totalDebt := num (field fin fin_totalDebt) in
      let totalCash := num (field fin fin_totalCash) in
      let revenue := num (field fin fin_totalRevenue) in
      let operatingMarginDecimal := num (field fin fin_operatingMargins) in
      let ebit :=
        match revenue, operatingMarginDecimal with
        | Some r, Some m => Some (r * m)
        | _, _ => None
        end in
      Some
        {| peRatio := num (field detail detail_trailingPE);
           forwardPE := num (field detail detail_forwardPE);
           pegRatio := num (field stats stats_pegRatio);
           priceToSales :=
             num (field detail detail_priceToSalesTrailing12Months);
           priceToBook := num (field stats stats_priceToBook);
           evToEbitda := num (field stats stats_enterpriseToEbitda);
           evToEbit := None;
           evToRevenue := num (field stats stats_enterpriseToRevenue);
           grossMargin := pct (field fin fin_grossMargins);
           operatingMargin := pct (field fin fin_operatingMargins);
           netMargin := pct (field fin fin_profitMargins);
           roe := pct (field fin fin_returnOnEquity);
           roa := pct (field fin fin_returnOnAssets);
           revenue := revenue;
           netIncome :=
             orelse_opt (num (field fin fin_netIncomeToCommon))
                        (num (field stats stats_netIncomeToCommon));
           ebitda := num (field fin fin_ebitda);
           ebit := ebit;
           eps := num (field stats stats_trailingEps);
           freeCashFlow := num (field fin fin_freeCashflow);
           totalCash := totalCash;
           totalDebt := totalDebt;
           netDebt :=
             match totalDebt, totalCash with
             | Some debt, Some cash => Some (debt - cash)
             | _, _ => None
             end;
           sharesOutstanding := num (field stats stats_sharesOutstanding);
           enterpriseValue := num (field stats stats_enterpriseValue) |}
  end.

End YahooFinanceProvider.

(** ** Reference formula of the equity value on rationals *)

(** The formula table on the values of finite numbers. *)
Definition equityQ (methodology : MultipleType) (r m x debt : Q) : Q :=
  match methodology with
  | pe => r * m * x
  | evEbit => r * (m * (13 # 10)) * x - debt
  | evEbitda => r * (m * (13 # 10)) * (12 # 10) * x - debt
  | evRevenue => r * x - debt
  | evFcf => r * m * x - debt
  end.

(** The snapshot with another net debt. *)
Definition with_netDebt (debt : option number) (metrics : FinancialMetrics)
    : FinancialMetrics :=
  {| peRatio := peRatio metrics; forwardPE := forwardPE metrics;
     pegRatio := pegRatio metrics; priceToSales := priceToSales metrics;
     priceToBook := priceToBook metrics; evToEbitda := evToEbitda metrics;
     evToEbit := evToEbit metrics; evToRevenue := evToRevenue metrics;
     grossMargin := grossMargin metrics;
     operatingMargin := operatingMargin metrics;
     netMargin := netMargin metrics; roe := roe metrics; roa := roa metrics;
     revenue := revenue metrics; netIncome := netIncome metrics;
     ebitda := ebitda metrics; ebit := ebit metrics; eps := eps metrics;
     freeCashFlow := freeCashFlow metrics; totalCash := totalCash metrics;
     totalDebt := totalDebt metrics; netDebt := debt;
     sharesOutstanding := sharesOutstanding metrics;
     enterpriseValue := enterpriseValue metrics |}.

(** ** Further sample inputs *)

(** A loss-making company with a trailing P/E of -8. *)
Definition metrics_negative_pe : FinancialMetrics :=
  {| peRatio := Some (Fin (-8)); forwardPE := None; pegRatio := None;
     priceToSales := None; priceToBook := None; evToEbitda := None;
     evToEbit := None; evToRevenue := None; grossMargin := None;
     operatingMargin := None; netMargin := Some (Fin (-12)); roe := None;
     roa := None; revenue := Some (Fin 1000); netIncome := None;
     ebitda := None; ebit := None; eps := None; freeCashFlow := None;
     totalCash := None; totalDebt := None; netDebt := None;
     sharesOutstanding := Some (Fin 100); enterpriseValue := None |}.


(** Three loss-making scenarios under pe. *)
Definition assumptions_all_losses : ProjectionAssumptions :=
  {| revenueGrowth := {| bear := Fin 5; base := Fin 10; bull := Fin 18 |};
     targetMargin :=
       {| bear := Fin (-17); base := Fin (-12); bull := Fin (-7) |};
     exitMultiple := {| bear := Fin 14; base := Fin 20; bull := Fin 26 |};
     multipleType := pe;
     dilutionRate := Fin 1;
     years := 5 |}.

(** ** Further predicates *)

(** A value that is not negative: its sign bit is clear (so it is not the
    negative zero either), it is not below 0, and it is NaN or [>= 0], an
    infinity included. *)
Definition never_negative (x : number) : Prop :=
  sign x = false
  /\ ltb x (Fin 0) = false
  /\ (is_nan x = true \/ nonneg x).

(** [x] is finite and stands for the rational [q]. *)
Definition evals (x : number) (q : Q) : Prop := finite x /\ val x == q.

(** The value of a nullable number read with [|| 0] or as an operand. *)
Definition valQ (x : option number) : Q :=
  match x with
  | Some v => val v
  | None => 0
  end.

(** The price of one scenario in a projection record or chart point. *)
Definition get_case (key : PredictorState.ScenarioKey) (p : PriceProjection)
    : number :=
  match key with
  | PredictorState.Bear => bearCase p
  | PredictorState.Base => baseCase p
  | PredictorState.Bull => bullCase p
  end.



(** The sum of the values of a list of finite numbers. *)
Fixpoint sumQ (l : list number) : Q :=
  match l with
  | [] => 0
  | v :: l' => val v + sumQ l'
  end.

(** The assumptions with another horizon. *)
Definition with_years (n : nat) (a : ProjectionAssumptions)
    : ProjectionAssumptions :=
  {| revenueGrowth := revenueGrowth a; targetMargin := targetMargin a;
     exitMultiple := exitMultiple a; multipleType := multipleType a;
     dilutionRate := dilutionRate a; years := n |}.

(** Every field of a snapshot is null or finite. *)
Definition finite_metrics (m : FinancialMetrics) : Prop :=
  Forall finite_or_null
    [peRatio m; forwardPE m; pegRatio m; priceToSales m; priceToBook m;
     evToEbitda m; evToEbit m; evToRevenue m; grossMargin m;
     operatingMargin m; netMargin m; roe m; roa m; revenue m; netIncome m;
     ebitda m; ebit m; eps m; freeCashFlow m; totalCash m; totalDebt m;
     netDebt m; sharesOutstanding m; enterpriseValue m].

(** An upstream response with figures that are not usable numbers. *)
Definition response_stats : YahooFinanceProvider.DefaultKeyStatistics :=
  {| YahooFinanceProvider.stats_pegRatio := YahooFinanceProvider.RawOther;
     YahooFinanceProvider.stats_priceToBook :=
       YahooFinanceProvider.RawNumber PInf;
     YahooFinanceProvider.stats_enterpriseToEbitda :=
       YahooFinanceProvider.RawNumber (Fin 15);
     YahooFinanceProvider.stats_enterpriseToRevenue :=
       YahooFinanceProvider.RawNumber NaN;
     YahooFinanceProvider.stats_netIncomeToCommon :=
       YahooFinanceProvider.RawNumber (Fin 180);
     YahooFinanceProvider.stats_trailingEps :=
       YahooFinanceProvider.RawNumber (Fin 2);
     YahooFinanceProvider.stats_sharesOutstanding :=
       YahooFinanceProvider.RawNumber (Fin 100);
     YahooFinanceProvider.stats_enterpriseValue :=
       YahooFinanceProvider.RawNumber NInf |}.

Definition response_fin : YahooFinanceProvider.FinancialData :=
  {| YahooFinanceProvider.fin_totalDebt :=
       YahooFinanceProvider.RawNumber (Fin 300);
     YahooFinanceProvider.fin_totalCash :=
       YahooFinanceProvider.RawNumber (Fin 100);
     YahooFinanceProvider.fin_totalRevenue :=
       YahooFinanceProvider.RawNumber (Fin 1000);
     YahooFinanceProvider.fin_operatingMargins :=
       YahooFinanceProvider.RawNumber (Fin (25 # 100));
     YahooFinanceProvider.fin_grossMargins :=
       YahooFinanceProvider.RawNumber NaN;
     YahooFinanceProvider.fin_profitMargins :=
       YahooFinanceProvider.RawNumber (Fin (-12 # 100));
     YahooFinanceProvider.fin_returnOnEquity :=
       YahooFinanceProvider.RawOther;
     YahooFinanceProvider.fin_returnOnAssets :=
       YahooFinanceProvider.RawNumber PInf;
     YahooFinanceProvider.fin_netIncomeToCommon :=
       YahooFinanceProvider.RawOther;
     YahooFinanceProvider.fin_ebitda :=
       YahooFinanceProvider.RawNumber (Fin 300);
     YahooFinanceProvider.fin_freeCashflow :=
       YahooFinanceProvider.RawNumber (Fin 0) |}.

(** * Properties *)

(** ** Arithmetic of the numeric domain *)

Module NumberFacts.

Local Open Scope Q_scope.

Lemma Qlt_bool_iff (p q : Q) : Qlt_bool p q = true <-> p < q.
Proof.
  unfold Qlt_bool. rewrite negb_true_iff. split; intros H.
  - apply Qnot_le_lt. intros Hle. apply Qle_bool_iff in Hle. congruence.
  - destruct (Qle_bool q p) eqn:E; [|reflexivity].
    apply Qle_bool_iff in E. exfalso. exact (Qlt_not_le _ _ H E).
Qed.

Lemma Qlt_bool_false_iff (p q : Q) : Qlt_bool p q = false <-> q <= p.
Proof.
  unfold Qlt_bool. rewrite negb_false_iff. apply Qle_bool_iff.
Qed.

Lemma finite_zero_of (s : bool) : finite (zero_of s).
Proof. destruct s; reflexivity. Qed.

Lemma val_zero_of (s : bool) : val (zero_of s) = 0.
Proof. destruct s; reflexivity. Qed.

Lemma finite_not_nan (x : number) : finite x -> is_nan x = false.
Proof. destruct x; unfold finite; simpl; congruence. Qed.

(** A finite number is a zero exactly when its value is 0. *)
Lemma is_zero_val (x : number) :
  finite x -> (is_zero x = true <-> val x == 0).
Proof.
  destruct x as [| | | | q]; unfold finite; simpl; try discriminate;
    intros _.
  - split; reflexivity.
  - apply Qeq_bool_iff.
Qed.

Lemma is_zero_false_val (x : number) :
  finite x -> (is_zero x = false <-> ~ val x == 0).
Proof.
  intros H. rewrite <- (is_zero_val x H).
  destruct (is_zero x); split; congruence.
Qed.

Lemma finite_of_nat (n : nat) : finite (of_nat n).
Proof. reflexivity. Qed.

(** Finite operands give finite results, with the value the rationals
    give. *)
Lemma add_finite (x y : number) :
  finite x -> finite y ->
  finite (add x y) /\ val (add x y) == val x + val y.
Proof.
  destruct x as [| | | | p], y as [| | | | q]; unfold finite; simpl;
    try discriminate; intros _ _;
    (split; [reflexivity | ring]).
Qed.

Lemma neg_finite (x : number) :
  finite x -> finite (neg x) /\ val (neg x) == - val x.
Proof.
  destruct x as [| | | | q]; unfold finite; simpl; try discriminate;
    intros _.
  - split; [reflexivity | ring].
  - destruct (Qeq_bool q 0) eqn:E; simpl.
    + apply Qeq_bool_iff in E. split; [reflexivity | rewrite E; ring].
    + split; reflexivity.
Qed.

Lemma sub_finite (x y : number) :
  finite x -> finite y ->
  finite (sub x y) /\ val (sub x y) == val x - val y.
Proof.
  intros Hx Hy. unfold sub.
  destruct (neg_finite y Hy) as [Hn Hv].
  destruct (add_finite x (neg y) Hx Hn) as [Ha Hw].
  split; [exact Ha | rewrite Hw, Hv; ring].
Qed.

Lemma mul_finite (x y : number) :
  finite x -> finite y ->
  finite (mul x y) /\ val (mul x y) == val x * val y.
Proof.
  destruct x as [| | | | p], y as [| | | | q]; unfold finite, mul; simpl;
    try discriminate; intros _ _.
  all: try (split; [apply finite_zero_of | rewrite val_zero_of; ring]).
  all: try (split; [reflexivity | ring]).
  destruct (Qeq_bool p 0) eqn:E1; simpl.
  - apply Qeq_bool_iff in E1.
    split; [apply finite_zero_of | rewrite val_zero_of, E1; ring].
  - destruct (Qeq_bool q 0) eqn:E2; simpl.
    + apply Qeq_bool_iff in E2.
      split; [apply finite_zero_of | rewrite val_zero_of, E2; ring].
    + split; reflexivity.
Qed.

Lemma div_finite (x y : number) :
  finite x -> finite y -> is_zero y = false ->
  finite (div x y) /\ val (div x y) == val x / val y.
Proof.
  destruct x as [| | | | p], y as [| | | | q]; unfold finite, div; simpl;
    try discriminate; intros _ _ Hy.
  - rewrite Hy. split; [apply finite_zero_of | rewrite val_zero_of].
    unfold Qdiv. ring.
  - rewrite Hy. destruct (Qeq_bool p 0) eqn:E1.
    + apply Qeq_bool_iff in E1.
      split; [apply finite_zero_of | rewrite val_zero_of, E1].
      unfold Qdiv. ring.
    + split; reflexivity.
Qed.

(** Dividing a finite number by a finite non-zero one never gives NaN; nor
    does dividing a non-zero one by a zero. *)
Lemma div_not_nan (x y : number) :
  finite x -> finite y -> is_zero x && is_zero y = false ->
  is_nan (div x y) = false.
Proof.
  destruct x as [| | | | p], y as [| | | | q]; unfold finite, div; simpl;
    try discriminate; intros _ _ H.
  - rewrite H. now destruct (Qlt_bool q 0).
  - rewrite andb_true_r in H. rewrite H. now destruct (Qlt_bool p 0).
  - destruct (Qeq_bool q 0), (Qeq_bool p 0); simpl in *;
      try discriminate; try reflexivity;
      now destruct (xorb (Qlt_bool p 0) (Qlt_bool q 0)).
Qed.

Lemma abs_finite (x : number) :
  finite x -> finite (Math_abs x) /\ val (Math_abs x) == Qabs (val x).
Proof.
  destruct x as [| | | | q]; unfold finite; simpl; try discriminate;
    intros _; split; reflexivity.
Qed.

(** The comparisons of finite numbers are those of their values. *)
Lemma ltb_val (x y : number) :
  finite x -> finite y -> (ltb x y = true <-> val x < val y).
Proof.
  destruct x as [| | | | p], y as [| | | | q]; unfold finite; simpl;
    try discriminate; intros _ _; apply Qlt_bool_iff.
Qed.

Lemma ltb_false_val (x y : number) :
  finite x -> finite y -> (ltb x y = false <-> val y <= val x).
Proof.
  destruct x as [| | | | p], y as [| | | | q]; unfold finite; simpl;
    try discriminate; intros _ _;
    apply Qlt_bool_false_iff.
Qed.

Lemma leb_val (x y : number) :
  finite x -> finite y -> (leb x y = true <-> val x <= val y).
Proof.
  destruct x as [| | | | p], y as [| | | | q]; unfold finite; simpl;
    try discriminate; intros _ _; apply Qle_bool_iff.
Qed.

Lemma max_finite (x y : number) :
  finite x -> finite y ->
  finite (Math_max x y) /\ val (Math_max x y) == Qmax (val x) (val y).
Proof.
  intros Hx Hy. unfold Math_max.
  rewrite (finite_not_nan x Hx), (finite_not_nan y Hy). simpl.
  destruct (ltb x y) eqn:E1.
  - apply (ltb_val x y Hx Hy) in E1.
    split; [exact Hy |]. symmetry. apply Q.max_r. apply Qlt_le_weak, E1.
  - apply (ltb_false_val x y Hx Hy) in E1.
    destruct (ltb y x) eqn:E2.
    + split; [exact Hx |]. symmetry. apply Q.max_l. exact E1.
    + apply (ltb_false_val y x Hy Hx) in E2.
      destruct (sign x).
      * split; [exact Hy |]. symmetry. apply Q.max_r. exact E2.
      * split; [exact Hx |]. symmetry. apply Q.max_l. exact E1.
Qed.

(** [Math.max(0, p)] is at least 0 unless [p] is NaN. *)
Lemma max0_nonneg (p : number) :
  is_nan p = false -> leb (Fin 0) (Math_max (Fin 0) p) = true.
Proof.
  intros Hp. unfold Math_max. simpl. rewrite Hp.
  destruct p; simpl in *; try discriminate; try reflexivity.
  destruct (Qlt_bool 0 q) eqn:E; simpl.
  - apply Qlt_bool_iff in E. apply Qle_bool_iff. apply Qlt_le_weak, E.
  - destruct (Qlt_bool q 0); reflexivity.
Qed.

(** Subtracting the literal 0 changes nothing, not even the sign of a
    zero. *)
Lemma sub_0_r (x : number) : sub x (Fin 0) = x.
Proof. destruct x; reflexivity. Qed.

(** [x || d]: a falsy [x] gives [d], and the result is truthy when [d] is. *)
Lemma or_else_falsy (v d : number) :
  truthy v = false -> or_else (Some v) d = d.
Proof. intros H. simpl. now rewrite H. Qed.

Lemma truthy_or_else (x : option number) (d : number) :
  truthy d = true -> truthy (or_else x d) = true.
Proof.
  intros Hd. destruct x as [v|]; simpl; [|exact Hd].
  destruct (truthy v) eqn:E; assumption.
Qed.

Lemma truthy_not_zero (x : number) : truthy x = true -> is_zero x = false.
Proof.
  unfold truthy. rewrite negb_true_iff, orb_false_iff. tauto.
Qed.

(** [Math.pow] at a natural exponent is the iterated product. *)
Lemma as_integer_of_nat (n : nat) : as_integer (of_nat n) = Some (Z.of_nat n).
Proof.
  unfold of_nat, of_Z, as_integer, inject_Z. simpl.
  rewrite Z.mod_1_r, Z.div_1_r. reflexivity.
Qed.

Lemma Math_pow_of_nat (pow_real : number -> number -> number)
    (x : number) (n : nat) :
  Math_pow pow_real x (of_nat n) = pow_nat x n.
Proof.
  unfold Math_pow. rewrite as_integer_of_nat.
  destruct (Z.leb_spec 0 (Z.of_nat n)) as [_ | H]; [| lia].
  now rewrite Nat2Z.id.
Qed.

Lemma pow_nat_finite (x : number) (n : nat) :
  finite x ->
  finite (pow_nat x n) /\ val (pow_nat x n) == val x ^ Z.of_nat n.
Proof.
  intros Hx. induction n as [| n [IHf IHv]].
  - split; reflexivity.
  - cbn [pow_nat].
    destruct (mul_finite x (pow_nat x n) Hx IHf) as [Hf Hv].
    split; [exact Hf |].
    rewrite Hv, IHv, Nat2Z.inj_succ, <- Z.add_1_l.
    destruct n as [| n].
    + simpl. ring.
    + rewrite Qpower_plus' by lia. simpl (val x ^ 1). reflexivity.
Qed.

Lemma pow_nat_not_zero (x : number) (n : nat) :
  finite x -> is_zero x = false -> is_zero (pow_nat x n) = false.
Proof.
  intros Hx Hz.
  destruct (pow_nat_finite x n Hx) as [Hf Hv].
  apply (is_zero_false_val _ Hf). rewrite Hv.
  apply Qpower_not_0. now apply (is_zero_false_val x Hx).
Qed.

End NumberFacts.
Import NumberFacts.

(** ** Finiteness of compound expressions *)

Lemma fin_add (x y : number) : finite x -> finite y -> finite (add x y).
Proof. intros Hx Hy. apply (add_finite x y Hx Hy). Qed.

Lemma fin_sub (x y : number) : finite x -> finite y -> finite (sub x y).
Proof. intros Hx Hy. apply (sub_finite x y Hx Hy). Qed.

Lemma fin_mul (x y : number) : finite x -> finite y -> finite (mul x y).
Proof. intros Hx Hy. apply (mul_finite x y Hx Hy). Qed.

Lemma fin_div (x y : number) :
  finite x -> finite y -> is_zero y = false -> finite (div x y).
Proof. intros Hx Hy Hz. apply (div_finite x y Hx Hy Hz). Qed.

Lemma fin_pow_nat (x : number) (n : nat) : finite x -> finite (pow_nat x n).
Proof. intros Hx. apply (pow_nat_finite x n Hx). Qed.

Lemma fin_Fin (q : Q) : finite (Fin q).
Proof. reflexivity. Qed.

Lemma fin_or_else (x : option number) (d : number) :
  finite_or_null x -> finite d -> finite (or_else x d).
Proof.
  destruct x as [v |]; simpl; intros Hx Hd; [| exact Hd].
  destruct (truthy v); assumption.
Qed.

Lemma fin_max (x y : number) : finite x -> finite y -> finite (Math_max x y).
Proof. intros Hx Hy. apply (max_finite x y Hx Hy). Qed.

Lemma fin_abs (x : number) : finite x -> finite (Math_abs x).
Proof. intros Hx. apply (abs_finite x Hx). Qed.

Create HintDb fin.
#[export] Hint Resolve fin_add fin_sub fin_mul fin_pow_nat fin_Fin fin_or_else
  fin_max fin_abs finite_of_nat : fin.

Lemma fin_percent (x : number) : finite x -> finite (div x (Fin 100)).
Proof. intros Hx. apply fin_div; auto with fin. Qed.

Lemma val_percent (x : number) :
  finite x -> val (div x (Fin 100)) == val x / 100.
Proof. intros Hx. apply (div_finite x (Fin 100) Hx); reflexivity. Qed.

#[export] Hint Resolve fin_percent : fin.

Import Valuation.

(** ** The loop of [calculateProjections] *)

Section Loop.

Variable pow_real : number -> number -> number.
Variables (metrics : FinancialMetrics) (assumptions : ProjectionAssumptions).
Variables (currentYear : Z) (currentRevenue sharesOutstanding : number).

Let record_at : nat -> PriceProjection :=
  projection_at pow_real metrics assumptions currentYear
    currentRevenue sharesOutstanding.

(** The loop appends the records of iterations [i], [i+1], ... in order. *)
Lemma projections_loop_spec (remaining i : nat)
    (projections : list PriceProjection) :
  projections_loop pow_real metrics assumptions currentYear
    currentRevenue sharesOutstanding remaining i projections
  = projections ++ map record_at (seq i remaining).
Proof.
  revert i projections.
  induction remaining as [| r IH]; intros i projections; simpl.
  - now rewrite app_nil_r.
  - rewrite IH, <- app_assoc. reflexivity.
Qed.

End Loop.

Lemma calculateProjections_map (pow_real : number -> number -> number)
    (metrics : FinancialMetrics) (assumptions : ProjectionAssumptions)
    (currentYear : Z) :
  calculateProjections pow_real metrics assumptions currentYear
  = map (projection_at pow_real metrics assumptions currentYear
           (or_else (revenue metrics) (Fin 0))
           (or_else (sharesOutstanding metrics) (Fin 1)))
        (seq 1 (years assumptions)).
Proof.
  unfold calculateProjections. now rewrite projections_loop_spec.
Qed.

(** ** Fair value: the per-methodology formulas *)

Lemma number_eq_refl (x : number) : number_eq x x.
Proof. destruct x; simpl; auto. reflexivity. Qed.

Lemma sign_Qeq (p p' : Q) : p == p' -> sign (Fin p) = sign (Fin p').
Proof. intros H. unfold sign, Qlt_bool. now rewrite H. Qed.

Lemma is_zero_Qeq (p p' : Q) : p == p' -> is_zero (Fin p) = is_zero (Fin p').
Proof. intros H. unfold is_zero. now rewrite H. Qed.

(** Division and the clamp respect numeric equality of the dividend. *)
Lemma div_number_eq (x x' s : number) :
  number_eq x x' -> number_eq (div x s) (div x' s).
Proof.
  intros H.
  destruct x as [| | | | p], x' as [| | | | p']; simpl in H;
    try contradiction; try apply number_eq_refl.
  unfold div. rewrite (sign_Qeq p p' H), (is_zero_Qeq p p' H).
  destruct s as [| | | | t]; try apply number_eq_refl.
  destruct (is_zero (Fin t)); [apply number_eq_refl |].
  destruct (is_zero (Fin p')); [apply number_eq_refl |].
  simpl. now rewrite H.
Qed.

Lemma max0_number_eq (p p' : number) :
  number_eq p p' ->
  number_eq (Math_max (Fin 0) p) (Math_max (Fin 0) p').
Proof.
  intros H.
  destruct p as [| | | | q], p' as [| | | | q']; simpl in H;
    try contradiction; try apply number_eq_refl.
  unfold Math_max, ltb, val, Qlt_bool. simpl is_nan. simpl orb. cbv iota.
  assert (E1 : Qle_bool q 0 = Qle_bool q' 0) by (now rewrite H).
  assert (E2 : Qle_bool 0 q = Qle_bool 0 q') by (now rewrite H).
  rewrite E1, E2.
  destruct (negb (Qle_bool q' 0)); [exact H |].
  destruct (negb (Qle_bool 0 q')); [reflexivity |].
  simpl. reflexivity.
Qed.

Lemma max0_div_NZero (s : number) :
  Math_max (Fin 0) (div NZero s) = Math_max (Fin 0) (div (Fin 0) s).
Proof.
  destruct s as [| | | | t]; try reflexivity.
  unfold div. simpl is_zero. simpl sign.
  destruct (Qeq_bool t 0); [reflexivity |].
  destruct (Qlt_bool t 0); reflexivity.
Qed.

(** A finite falsy number is one of the zeros, and subtracting either zero
    leaves the clamped quotient unchanged. *)
Lemma max0_div_sub_zero (e z s : number) :
  is_zero z = true ->
  number_eq (Math_max (Fin 0) (div (sub e (Fin 0)) s))
            (Math_max (Fin 0) (div (sub e z) s)).
Proof.
  intros Hz. rewrite sub_0_r.
  destruct z as [| | | | q]; try discriminate; unfold sub.
  - (* z = -0: e - (-0) = e + 0 *)
    change (neg NZero) with (Fin 0).
    destruct e as [| | | | p]; try apply number_eq_refl.
    + change (add NZero (Fin 0)) with (Fin 0).
      rewrite max0_div_NZero. apply number_eq_refl.
    + apply max0_number_eq, div_number_eq. simpl. ring.
  - (* z = +0 *)
    simpl in Hz. simpl neg. rewrite Hz.
    replace (add e NZero) with e by (now destruct e).
    apply number_eq_refl.
Qed.

(** C1.  [calculateFairValuePrice] returns
    [max(0, equityValue / sharesOutstanding)], where [equityValue] is given
    by the formula table: revenue x margin x multiple for pe, with the
    margin scaled by 1.3 for evEbit and further by 1.2 for evEbitda, the
    margin left out for evRevenue, and net debt (0 when null) subtracted in
    the four enterprise-value methods.  Only the net debt has to be finite
    (a NaN net debt is read as 0 by the code); the other inputs may be any
    number. *)
Theorem calculateFairValuePrice_formula
    (revenue sharesOutstanding targetMargin exitMultiple : number)
    (methodology : MultipleType) (metrics : FinancialMetrics) :
  finite_or_null (netDebt metrics) ->
  number_eq
    (calculateFairValuePrice revenue sharesOutstanding targetMargin
       exitMultiple methodology metrics)
    (FairValueSpec.fairValuePrice revenue sharesOutstanding targetMargin
       exitMultiple methodology metrics).
Proof.
  intros Hd.
  unfold calculateFairValuePrice, FairValueSpec.fairValuePrice,
    FairValueSpec.equityValue, FairValueSpec.netDebt_or_0.
  destruct (netDebt metrics) as [d |] eqn:Ed; simpl or_else.
  - destruct (truthy d) eqn:Et.
    + destruct methodology; apply number_eq_refl.
    + assert (Hz : is_zero d = true).
      { unfold truthy in Et. rewrite (finite_not_nan d Hd) in Et.
        simpl in Et. now apply negb_false_iff in Et. }
      destruct methodology; try apply number_eq_refl;
        now apply max0_div_sub_zero.
  - destruct methodology; apply number_eq_refl.
Qed.

(** The second worked example of the design document: evRevenue with
    revenue 1000, multiple 3, net debt 200 and 100 shares. *)
Lemma calculateFairValuePrice_formula_witness :
  number_eq
    (calculateFairValuePrice (Fin 1000) (Fin 100) (Fin (1 # 10)) (Fin 3)
       evRevenue (metrics_with None None (Some (Fin 200)) None))
    (FairValueSpec.fairValuePrice (Fin 1000) (Fin 100) (Fin (1 # 10)) (Fin 3)
       evRevenue (metrics_with None None (Some (Fin 200)) None)).
Proof.
  apply calculateFairValuePrice_formula; reflexivity.
Defined.

(** The two worked examples evaluate to 20 and 28. *)
Example fairValuePrice_pe_example :
  number_eq
    (calculateFairValuePrice (Fin 1000) (Fin 100) (Fin (1 # 10)) (Fin 20)
       pe metrics_unknown)
    (Fin 20).
Proof. reflexivity. Qed.

Example fairValuePrice_evRevenue_example :
  number_eq
    (calculateFairValuePrice (Fin 1000) (Fin 100) (Fin (1 # 10)) (Fin 3)
       evRevenue (metrics_with None None (Some (Fin 200)) None))
    (Fin 28).
Proof. reflexivity. Qed.

(** ** Projected years are fair values of the compounded inputs *)

Lemma projectedRevenue_of_nat (pow_real : number -> number -> number)
    (revenue g : number) (i : nat) :
  projectedRevenue pow_real revenue g (of_nat i)
  = mul revenue (pow_nat (add (Fin 1) g) i).
Proof. unfold projectedRevenue. now rewrite Math_pow_of_nat. Qed.

Lemma projectedShares_of_nat (pow_real : number -> number -> number)
    (shares d : number) (i : nat) :
  projectedShares pow_real shares d (of_nat i)
  = mul shares (pow_nat (add (Fin 1) d) i).
Proof. unfold projectedShares. now rewrite Math_pow_of_nat. Qed.

(** C5.  The price of projected year [i] is the fair value of the revenue
    compounded by [(1 + g)^i] and the share count compounded by
    [(1 + d)^i], for every methodology. *)
Theorem calculateScenarioPrice_is_fair_value
    (pow_real : number -> number -> number)
    (revenue shares g m x d : number) (i : nat)
    (methodology : MultipleType) (metrics : FinancialMetrics) :
  calculateScenarioPrice pow_real revenue shares g m x d (of_nat i)
    methodology metrics
  = calculateFairValuePrice
      (mul revenue (pow_nat (add (Fin 1) g) i))
      (mul shares (pow_nat (add (Fin 1) d) i))
      m x methodology metrics.
Proof.
  unfold calculateScenarioPrice, calculateFairValuePrice.
  rewrite projectedRevenue_of_nat, projectedShares_of_nat.
  destruct methodology; reflexivity.
Qed.

(** ** Without net debt, EV/FCF is P/E *)

Lemma or_else_null_or_zero (x : option number) (d : number) :
  null_or_zero x -> or_else x d = d.
Proof.
  intros [-> | [z [-> Hz]]]; [reflexivity |].
  apply or_else_falsy. unfold truthy. rewrite Hz.
  now rewrite orb_true_r.
Qed.

(** C10.  When the snapshot's net debt is null or zero, the evFcf
    methodology gives the same price as the pe methodology, for the fair
    value and for every projected year. *)
Theorem evFcf_is_pe_without_net_debt
    (pow_real : number -> number -> number)
    (revenue shares g m x d years : number) (metrics : FinancialMetrics) :
  null_or_zero (netDebt metrics) ->
  calculateFairValuePrice revenue shares m x evFcf metrics
  = calculateFairValuePrice revenue shares m x pe metrics
  /\ calculateScenarioPrice pow_real revenue shares g m x d years
       evFcf metrics
     = calculateScenarioPrice pow_real revenue shares g m x d years
         pe metrics.
Proof.
  intros H.
  unfold calculateFairValuePrice, calculateScenarioPrice.
  rewrite (or_else_null_or_zero _ _ H), !sub_0_r.
  split; reflexivity.
Qed.

Lemma evFcf_is_pe_without_net_debt_witness :
  calculateFairValuePrice (Fin 1000) (Fin 100) (Fin (1 # 10)) (Fin 20)
    evFcf (metrics_with None None (Some (Fin 0)) None)
  = calculateFairValuePrice (Fin 1000) (Fin 100) (Fin (1 # 10)) (Fin 20)
      pe (metrics_with None None (Some (Fin 0)) None)
  /\ calculateScenarioPrice (fun _ _ => NaN) (Fin 1000) (Fin 100)
       (Fin (1 # 10)) (Fin (1 # 10)) (Fin 20) (Fin (1 # 100)) (Fin 3)
       evFcf (metrics_with None None (Some (Fin 0)) None)
     = calculateScenarioPrice (fun _ _ => NaN) (Fin 1000) (Fin 100)
         (Fin (1 # 10)) (Fin (1 # 10)) (Fin 20) (Fin (1 # 100)) (Fin 3)
         pe (metrics_with None None (Some (Fin 0)) None).
Proof.
  apply evFcf_is_pe_without_net_debt.
  right. exists (Fin 0). split; reflexivity.
Defined.

(** With a net debt the two methodologies differ. *)
Example evFcf_differs_with_net_debt :
  calculateFairValuePrice (Fin 1000) (Fin 100) (Fin (1 # 10)) (Fin 20)
    evFcf (metrics_with None None (Some (Fin 200)) None)
  <> calculateFairValuePrice (Fin 1000) (Fin 100) (Fin (1 # 10)) (Fin 20)
       pe (metrics_with None None (Some (Fin 200)) None).
Proof. vm_compute. discriminate. Qed.

(** ** The projection engine reads three fields of the snapshot *)

Lemma calculateScenarioPrice_netDebt
    (pow_real : number -> number -> number)
    (revenue shares g m x d years : number) (methodology : MultipleType)
    (m1 m2 : FinancialMetrics) :
  netDebt m1 = netDebt m2 ->
  calculateScenarioPrice pow_real revenue shares g m x d years methodology m1
  = calculateScenarioPrice pow_real revenue shares g m x d years
      methodology m2.
Proof.
  intros H. unfold calculateScenarioPrice. now rewrite H.
Qed.

(** C9.  Two snapshots that agree on revenue, sharesOutstanding and netDebt
    give the same projections, whatever their other fields are. *)
Theorem calculateProjections_reads_three_fields
    (pow_real : number -> number -> number)
    (m1 m2 : FinancialMetrics) (assumptions : ProjectionAssumptions)
    (currentYear : Z) :
  revenue m1 = revenue m2 ->
  sharesOutstanding m1 = sharesOutstanding m2 ->
  netDebt m1 = netDebt m2 ->
  calculateProjections pow_real m1 assumptions currentYear
  = calculateProjections pow_real m2 assumptions currentYear.
Proof.
  intros Hr Hs Hd.
  rewrite !calculateProjections_map, Hr, Hs.
  apply map_ext. intros i. unfold projection_at.
  f_equal; apply calculateScenarioPrice_netDebt; exact Hd.
Qed.

Lemma calculateProjections_reads_three_fields_witness :
  calculateProjections (fun _ _ => NaN) metrics_sample_a
    (PricePredictor.initialAssumptions metrics_unknown) 2024
  = calculateProjections (fun _ _ => NaN) metrics_sample_b
      (PricePredictor.initialAssumptions metrics_unknown) 2024.
Proof.
  apply calculateProjections_reads_three_fields; reflexivity.
Defined.

(** ** Shape of the projection sequence *)

Lemma nth_error_calculateProjections
    (pow_real : number -> number -> number)
    (metrics : FinancialMetrics) (assumptions : ProjectionAssumptions)
    (currentYear : Z) (k : nat) :
  (k < years assumptions)%nat ->
  nth_error (calculateProjections pow_real metrics assumptions currentYear) k
  = Some (projection_at pow_real metrics assumptions currentYear
            (or_else (revenue metrics) (Fin 0))
            (or_else (sharesOutstanding metrics) (Fin 1))
            (S k)).
Proof.
  intros Hk. rewrite calculateProjections_map.
  rewrite nth_error_map, nth_error_seq.
  destruct (Nat.ltb_spec k (years assumptions)); [reflexivity | lia].
Qed.

(** C2.  [calculateProjections] returns exactly [assumptions.years]
    records, and their [year] fields are [currentYear+1], [currentYear+2],
    ..., [currentYear+years] in that order: strictly increasing and
    contiguous. *)
Theorem calculateProjections_years
    (pow_real : number -> number -> number)
    (metrics : FinancialMetrics) (assumptions : ProjectionAssumptions)
    (currentYear : Z) :
  let projections :=
    calculateProjections pow_real metrics assumptions currentYear in
  length projections = years assumptions
  /\ map year projections
     = map (fun i => (currentYear + Z.of_nat i)%Z)
           (seq 1 (years assumptions))
  /\ (forall k p q,
        nth_error projections k = Some p ->
        nth_error projections (S k) = Some q ->
        (year p < year q)%Z /\ year q = (year p + 1)%Z).
Proof.
  intros projections. subst projections.
  split; [| split].
  - rewrite calculateProjections_map. now rewrite length_map, length_seq.
  - rewrite calculateProjections_map, map_map. reflexivity.
  - intros k p q Hp Hq.
    assert (Hlen : length (calculateProjections pow_real metrics assumptions
                             currentYear) = years assumptions).
    { rewrite calculateProjections_map. now rewrite length_map, length_seq. }
    assert (Hk : (S k < years assumptions)%nat).
    { rewrite <- Hlen. apply nth_error_Some. congruence. }
    rewrite nth_error_calculateProjections in Hp by lia.
    rewrite nth_error_calculateProjections in Hq by lia.
    injection Hp as <-. injection Hq as <-.
    simpl year. lia.
Qed.

(** The default five-year horizon from 2024 covers 2025 to 2029. *)
Example calculateProjections_years_example :
  map year
    (calculateProjections (fun _ _ => NaN) metrics_sample_a
       (PricePredictor.initialAssumptions metrics_sample_a) 2024)
  = [2025; 2026; 2027; 2028; 2029]%Z.
Proof. reflexivity. Qed.

(** ** Missing revenue and shares *)

Lemma mul_zero_l (x y : number) :
  is_zero x = true -> finite y -> is_zero (mul x y) = true.
Proof.
  unfold finite.
  destruct x as [| | | | p], y as [| | | | q]; simpl; try discriminate;
    intros Hx _; try rewrite Hx; simpl; try reflexivity;
    match goal with
    | |- is_zero (zero_of ?b) = true => destruct b; reflexivity
    end.
Qed.

Lemma mul_zero_r (x y : number) :
  finite x -> is_zero y = true -> is_zero (mul x y) = true.
Proof.
  unfold finite.
  destruct x as [| | | | p], y as [| | | | q]; simpl; try discriminate;
    intros _ Hy; try rewrite Hy; try rewrite orb_true_r; simpl;
    try reflexivity;
    match goal with
    | |- is_zero (zero_of ?b) = true => destruct b; reflexivity
    end.
Qed.

(** When [1 + dilutionRate] is zero the compounded share count of every
    year from 1 on is zero, whatever the (finite) share count. *)
Lemma projectedShares_zero (pow_real : number -> number -> number)
    (shares d : number) (i : nat) :
  finite shares -> finite d -> is_zero (add (Fin 1) d) = true ->
  is_zero (projectedShares pow_real shares d (of_nat (S i))) = true.
Proof.
  intros Hs Hd Hz. rewrite projectedShares_of_nat.
  assert (Hb : finite (add (Fin 1) d)) by auto with fin.
  apply mul_zero_r; [exact Hs |].
  simpl pow_nat. apply mul_zero_l; [exact Hz |].
  apply (pow_nat_finite _ i Hb).
Qed.


(** With nothing known about the company the projection is the degenerate
    all-zero one, five records long. *)
Example calculateProjections_unknown :
  map (fun p => (bearCase p, baseCase p, bullCase p))
    (calculateProjections (fun _ _ => NaN) metrics_unknown
       (PricePredictor.initialAssumptions metrics_unknown) 2024)
  = repeat (Fin 0, Fin 0, Fin 0) 5.
Proof. vm_compute. reflexivity. Qed.

(** ** CAGR *)

(** C3, as it is worded, fails: an end price of 0 (a projected price clamped
    to 0) with a positive start price and a positive number of years is
    none of the three listed cases, yet the result is null and not the
    -100% the formula gives. *)
Lemma calculateCAGR_zero_end_price :
  let start := Some (Fin 100) in
  let end_ := Some (Fin 0) in
  let years := Fin 5 in
  ~ (calculateCAGR (fun _ _ => NaN) start end_ years = None
     <-> (leb (Fin 100) (Fin 0) = true
          \/ end_ = None
          \/ leb years (Fin 0) = true)).
Proof.
  intros start end_ years [H _].
  destruct (H eq_refl) as [H0 | [H0 | H0]]; discriminate H0.
Qed.

(** C3, amended.  [calculateCAGR] returns null exactly when the start price
    is null/undefined, NaN, zero or negative, when the end price is
    null/undefined, NaN or zero, or when [years <= 0]; for every other
    input it returns [((end/start)^(1/years) - 1) * 100]. *)
Theorem calculateCAGR_amended
    (pow_real : number -> number -> number)
    (start end_ : option number) (years : number) :
  calculateCAGR pow_real start end_ years
  = CAGRSpec.CAGR pow_real start end_ years
  /\ (calculateCAGR pow_real start end_ years = None
      <-> CAGRSpec.undefined start end_ years = true).
Proof.
  unfold calculateCAGR, CAGRSpec.CAGR, CAGRSpec.undefined, CAGRSpec.formula.
  destruct start as [s |], end_ as [e |]; simpl.
  - unfold truthy. rewrite !negb_involutive.
    destruct (is_nan s), (is_zero s), (leb s (Fin 0)), (is_nan e),
      (is_zero e), (leb years (Fin 0)); simpl;
      (split; [reflexivity | split; (discriminate || reflexivity)]).
  - rewrite orb_true_r. simpl. split; [reflexivity | tauto].
  - split; [reflexivity | tauto].
  - split; [reflexivity | tauto].
Qed.

(** One year from 100 to 121 is a 21% return. *)
Example calculateCAGR_example :
  exists r,
    calculateCAGR (fun _ _ => NaN) (Some (Fin 100)) (Some (Fin 121)) (Fin 1)
    = Some r
    /\ number_eq r (Fin 21).
Proof. eexists. split; reflexivity. Qed.

Example calculateCAGR_zero_start :
  calculateCAGR (fun _ _ => NaN) (Some (Fin 0)) (Some (Fin 121)) (Fin 1)
  = None.
Proof. reflexivity. Qed.

(** ** Default margins *)

Import PricePredictor.

(** C7.  The default target margins are centred on the current net margin
    (10 when it is unknown), with the spread [max(|currentMargin| * 0.25, 5)]
    subtracted for bear and added for bull; for every finite current
    margin, negative ones included, bull > base > bear. *)
Theorem initialAssumptions_margins (metrics : FinancialMetrics) :
  finite_or_null (netMargin metrics) ->
  let margins := targetMargin (initialAssumptions metrics) in
  (netMargin metrics = None -> currentMargin metrics = Fin 10)
  /\ (forall v, netMargin metrics = Some v -> currentMargin metrics = v)
  /\ finite (marginSpread metrics)
  /\ val (marginSpread metrics)
     == Qmax (Qabs (val (currentMargin metrics)) * (25 # 100)) 5
  /\ bear margins = sub (currentMargin metrics) (marginSpread metrics)
  /\ base margins = currentMargin metrics
  /\ bull margins = add (currentMargin metrics) (marginSpread metrics)
  /\ ltb (bear margins) (base margins) = true
  /\ ltb (base margins) (bull margins) = true.
Proof.
  intros Hm margins.
  assert (Hc : finite (currentMargin metrics)).
  { unfold currentMargin. destruct (netMargin metrics); [exact Hm |].
    reflexivity. }
  assert (Hs : finite (marginSpread metrics)
               /\ val (marginSpread metrics)
                  == Qmax (Qabs (val (currentMargin metrics)) * (25 # 100)) 5).
  { unfold marginSpread.
    destruct (abs_finite _ Hc) as [Ha Hav].
    destruct (mul_finite _ (Fin (25 # 100)) Ha (fin_Fin _)) as [Hp Hpv].
    destruct (max_finite _ (Fin 5) Hp (fin_Fin _)) as [Hx Hxv].
    split; [exact Hx |]. rewrite Hxv, Hpv, Hav. reflexivity. }
  destruct Hs as [Hs Hsv].
  assert (H5 : 5 <= val (marginSpread metrics)).
  { rewrite Hsv. apply Q.le_max_r. }
  split; [now unfold currentMargin; intros -> |].
  split; [now unfold currentMargin; intros v -> |].
  split; [exact Hs |]. split; [exact Hsv |].
  split; [reflexivity |]. split; [reflexivity |]. split; [reflexivity |].
  subst margins. simpl.
  destruct (sub_finite _ _ Hc Hs) as [Hb Hbv].
  destruct (add_finite _ _ Hc Hs) as [Hu Huv].
  split.
  - apply (ltb_val _ _ Hb Hc). rewrite Hbv. lra.
  - apply (ltb_val _ _ Hc Hu). rewrite Huv. lra.
Qed.

(** The loss-making example of the design document: a current margin of
    -10 gives the spread 5 and the margins -15 < -10 < -5. *)
Lemma initialAssumptions_margins_witness :
  let metrics := metrics_with (Some (Fin (-10))) None None None in
  let margins := targetMargin (initialAssumptions metrics) in
  (netMargin metrics = None -> currentMargin metrics = Fin 10)
  /\ (forall v, netMargin metrics = Some v -> currentMargin metrics = v)
  /\ finite (marginSpread metrics)
  /\ val (marginSpread metrics)
     == Qmax (Qabs (val (currentMargin metrics)) * (25 # 100)) 5
  /\ bear margins = sub (currentMargin metrics) (marginSpread metrics)
  /\ base margins = currentMargin metrics
  /\ bull margins = add (currentMargin metrics) (marginSpread metrics)
  /\ ltb (bear margins) (base margins) = true
  /\ ltb (base margins) (bull margins) = true.
Proof.
  apply (initialAssumptions_margins
           (metrics_with (Some (Fin (-10))) None None None)).
  reflexivity.
Defined.

Example initialAssumptions_margins_example :
  targetMargin (initialAssumptions
                  (metrics_with (Some (Fin (-10))) None None None))
  = {| bear := Fin (-15); base := Fin (-10); bull := Fin (-5) |}.
Proof. reflexivity. Qed.

(** A multiplicative spread (margin x 0.75 / x 1.25) would invert the order
    at this margin; the additive one does not. *)
Example multiplicative_spread_inverts :
  ltb (mul (Fin (-10)) (Fin (125 # 100))) (mul (Fin (-10)) (Fin (75 # 100)))
  = true.
Proof. reflexivity. Qed.

(** ** Prices are clamped at zero *)

Lemma calculateFairValuePrice_nonneg
    (revenue shares m x : number) (methodology : MultipleType)
    (metrics : FinancialMetrics) :
  finite revenue -> finite shares -> finite m -> finite x ->
  finite_or_null (netDebt metrics) ->
  is_zero shares = false ->
  nonneg (calculateFairValuePrice revenue shares m x methodology metrics).
Proof.
  intros Hr Hs Hm Hx Hd Hz.
  unfold calculateFairValuePrice, nonneg.
  destruct methodology; apply max0_nonneg, div_not_nan;
    auto 10 with fin; rewrite Hz; apply andb_false_r.
Qed.

Lemma mul_not_zero (x y : number) :
  finite x -> finite y -> is_zero x = false -> is_zero y = false ->
  is_zero (mul x y) = false.
Proof.
  intros Hx Hy Zx Zy.
  destruct (mul_finite x y Hx Hy) as [Hf Hv].
  apply (is_zero_false_val _ Hf). rewrite Hv. intros H.
  apply Qmult_integral in H. destruct H as [H | H].
  - now apply (is_zero_false_val x Hx) in Zx.
  - now apply (is_zero_false_val y Hy) in Zy.
Qed.

Lemma calculateScenarioPrice_nonneg
    (pow_real : number -> number -> number)
    (revenue shares g m x d : number) (i : nat)
    (methodology : MultipleType) (metrics : FinancialMetrics) :
  finite revenue -> finite shares -> finite g -> finite m -> finite x ->
  finite d -> finite_or_null (netDebt metrics) ->
  is_zero shares = false -> is_zero (add (Fin 1) d) = false ->
  nonneg (calculateScenarioPrice pow_real revenue shares g m x d (of_nat i)
            methodology metrics).
Proof.
  intros Hr Hs Hg Hm Hx Hd Hn Zs Zd.
  assert (Zp : is_zero (mul shares (pow_nat (add (Fin 1) d) i)) = false).
  { apply mul_not_zero; auto with fin.
    apply pow_nat_not_zero; auto with fin. }
  unfold calculateScenarioPrice, nonneg.
  rewrite projectedRevenue_of_nat, projectedShares_of_nat.
  destruct methodology; apply max0_nonneg, div_not_nan;
    auto 10 with fin; rewrite Zp; apply andb_false_r.
Qed.

Lemma one_plus_percent_not_zero (d : number) :
  finite d -> ~ val d == -100 ->
  is_zero (add (Fin 1) (div d (Fin 100))) = false.
Proof.
  intros Hd Hv.
  destruct (add_finite (Fin 1) _ (fin_Fin 1) (fin_percent d Hd)) as [Hf Hw].
  apply (is_zero_false_val _ Hf).
  rewrite Hw, (val_percent d Hd). simpl val.
  intros H. apply Hv.
  unfold Qdiv in H. change (/ 100) with (1 # 100) in H. lra.
Qed.

Lemma calculateProjections_nonneg
    (pow_real : number -> number -> number)
    (metrics : FinancialMetrics) (assumptions : ProjectionAssumptions)
    (currentYear : Z) :
  finite_or_null (revenue metrics) ->
  finite_or_null (sharesOutstanding metrics) ->
  finite_or_null (netDebt metrics) ->
  finite_assumptions assumptions ->
  ~ val (dilutionRate assumptions) == -100 ->
  Forall (fun p =>
            nonneg (bearCase p) /\ nonneg (baseCase p) /\ nonneg (bullCase p))
    (calculateProjections pow_real metrics assumptions currentYear).
Proof.
  intros Hr Hs Hn [[Hg1 [Hg2 Hg3]] [[Hm1 [Hm2 Hm3]] [[Hx1 [Hx2 Hx3]] Hd]]] Hv.
  rewrite calculateProjections_map.
  apply Forall_map, Forall_forall. intros i _.
  assert (Zs : is_zero (or_else (sharesOutstanding metrics) (Fin 1)) = false)
    by (apply truthy_not_zero, truthy_or_else; reflexivity).
  pose proof (one_plus_percent_not_zero _ Hd Hv) as Zd.
  unfold projection_at. simpl.
  repeat split; apply calculateScenarioPrice_nonneg; auto with fin.
Qed.

Lemma div_zero_zero (x y : number) :
  is_zero x = true -> is_zero y = true -> div x y = NaN.
Proof.
  destruct x as [| | | | p], y as [| | | | q]; simpl; try discriminate;
    intros Hx Hy; try rewrite Hx; try rewrite Hy; reflexivity.
Qed.

Lemma sub_zero_zero (x : number) :
  is_zero x = true -> is_zero (sub x (Fin 0)) = true.
Proof.
  destruct x as [| | | | p]; simpl; try discriminate; auto.
Qed.

(** C4.  The code at the failing input.  With a dilution rate of -100% the
    compounded share count is zero in every projected year, whatever the
    share count; without revenue the equity value is zero too, the price is
    0/0 and [Math.max(0, NaN)] is NaN: the clamp does not apply and the
    result is not [>= 0].  This holds for [calculateScenarioPrice] at finite
    arguments with a share count of 1, for every year from 1 on and every
    methodology, and for every price of the five records
    [calculateProjections] returns for a snapshot without revenue and share
    count, where the shares floor has put the share count to 1. *)
Theorem full_buyback_prices_nan
    (pow_real : number -> number -> number) (currentYear : Z) :
  let projections :=
    calculateProjections pow_real metrics_unknown assumptions_full_buyback
      currentYear in
  finite_assumptions assumptions_full_buyback
  /\ (forall (i : nat) (methodology : MultipleType),
        calculateScenarioPrice pow_real (Fin 0) (Fin 1)
          (Fin (5 # 100)) (Fin (5 # 100)) (Fin 14) (Fin (-1))
          (of_nat (S i)) methodology metrics_unknown
        = NaN)
  /\ map (fun p => (bearCase p, baseCase p, bullCase p)) projections
     = repeat (NaN, NaN, NaN) 5
  /\ Forall (fun p =>
               ~ nonneg (bearCase p) /\ ~ nonneg (baseCase p)
               /\ ~ nonneg (bullCase p))
       projections.
Proof.
  cbv zeta. split; [vm_compute; tauto |]. split; [| split].
  - intros i methodology.
    assert (Hs : is_zero (projectedShares pow_real (Fin 1) (Fin (-1))
                            (of_nat (S i))) = true)
      by (apply projectedShares_zero; reflexivity).
    assert (Hr : is_zero (projectedRevenue pow_real (Fin 0) (Fin (5 # 100))
                            (of_nat (S i))) = true).
    { rewrite projectedRevenue_of_nat. apply mul_zero_l; [reflexivity |].
      apply (pow_nat_finite _ (S i)). reflexivity. }
    unfold calculateScenarioPrice.
    set (R := projectedRevenue pow_real (Fin 0) (Fin (5 # 100))
                (of_nat (S i))) in *.
    set (S' := projectedShares pow_real (Fin 1) (Fin (-1)) (of_nat (S i)))
      in *.
    assert (Hprice : forall n, is_zero n = true ->
                     Math_max (Fin 0) (div n S') = NaN)
      by (intros n Hn; now rewrite (div_zero_zero n S' Hn Hs)).
    destruct methodology; cbv zeta; apply Hprice;
      change (or_else (netDebt metrics_unknown) (Fin 0)) with (Fin 0);
      try apply sub_zero_zero;
      repeat (apply mul_zero_l; [| reflexivity]); exact Hr.
  - rewrite calculateProjections_map, map_map. vm_compute. reflexivity.
  - rewrite calculateProjections_map. vm_compute.
    repeat constructor; discriminate.
Qed.

Example prices_clamped_example :
  map (fun p => (bearCase p, baseCase p, bullCase p))
    (calculateProjections (fun _ _ => NaN) metrics_sample_a
       assumptions_loss_making 2024)
  = repeat (Fin 0, Fin 0, Fin 0) 5.
Proof. vm_compute. reflexivity. Qed.

(** ** Monotonicity under growth *)

Lemma Qpower_succ_nat (a : Q) (n : nat) :
  a ^ Z.of_nat (S n) == a * a ^ Z.of_nat n.
Proof.
  rewrite Nat2Z.inj_succ, <- Z.add_1_l.
  destruct n as [| n].
  - simpl. ring.
  - rewrite Qpower_plus' by lia. reflexivity.
Qed.


Section Growth.

Variable pow_real : number -> number -> number.



Lemma one_plus_percent_pos (G : Q) : -100 < G -> 0 < 1 + G / 100.
Proof.
  intros H. unfold Qdiv. change (/ 100) with (1 # 100). lra.
Qed.



End Growth.




Example growth_monotone_example :
  ltb (calculateScenarioPrice (fun _ _ => NaN) (Fin 1000) (Fin 100)
         (div (Fin 5) (Fin 100)) (div (Fin 10) (Fin 100)) (Fin 20)
         (div (Fin 1) (Fin 100)) (of_nat 3) pe metrics_unknown)
      (calculateScenarioPrice (fun _ _ => NaN) (Fin 1000) (Fin 100)
         (div (Fin 10) (Fin 100)) (div (Fin 10) (Fin 100)) (Fin 20)
         (div (Fin 1) (Fin 100)) (of_nat 3) pe metrics_unknown)
  = true.
Proof. vm_compute. reflexivity. Qed.

(** * Further properties of the code *)

(** ** Values of compound expressions *)

Lemma evals_val (x : number) : finite x -> evals x (val x).
Proof. intros H. split; [exact H | reflexivity]. Qed.

Lemma evals_Fin (q : Q) : evals (Fin q) q.
Proof. split; reflexivity. Qed.

Lemma evals_eq (x : number) (p q : Q) : evals x p -> p == q -> evals x q.
Proof. intros [Hf Hv] E. split; [exact Hf | now rewrite Hv]. Qed.

Lemma evals_add (x y : number) (p q : Q) :
  evals x p -> evals y q -> evals (add x y) (p + q).
Proof.
  intros [Fx Vx] [Fy Vy]. destruct (add_finite x y Fx Fy) as [F V].
  split; [exact F | now rewrite V, Vx, Vy].
Qed.

Lemma evals_sub (x y : number) (p q : Q) :
  evals x p -> evals y q -> evals (sub x y) (p - q).
Proof.
  intros [Fx Vx] [Fy Vy]. destruct (sub_finite x y Fx Fy) as [F V].
  split; [exact F | now rewrite V, Vx, Vy].
Qed.

Lemma evals_mul (x y : number) (p q : Q) :
  evals x p -> evals y q -> evals (mul x y) (p * q).
Proof.
  intros [Fx Vx] [Fy Vy]. destruct (mul_finite x y Fx Fy) as [F V].
  split; [exact F | now rewrite V, Vx, Vy].
Qed.

Lemma evals_div (x y : number) (p q : Q) :
  evals x p -> evals y q -> ~ q == 0 -> evals (div x y) (p / q).
Proof.
  intros [Fx Vx] [Fy Vy] Hq.
  assert (Zy : is_zero y = false).
  { apply (is_zero_false_val y Fy). now rewrite Vy. }
  destruct (div_finite x y Fx Fy Zy) as [F V].
  split; [exact F | now rewrite V, Vx, Vy].
Qed.

Lemma evals_max (x y : number) (p q : Q) :
  evals x p -> evals y q -> evals (Math_max x y) (Qmax p q).
Proof.
  intros [Fx Vx] [Fy Vy]. destruct (max_finite x y Fx Fy) as [F V].
  split; [exact F | now rewrite V, Vx, Vy].
Qed.

Lemma evals_pow_nat (x : number) (p : Q) (n : nat) :
  evals x p -> evals (pow_nat x n) (p ^ Z.of_nat n).
Proof.
  intros [Fx Vx]. destruct (pow_nat_finite x n Fx) as [F V].
  split; [exact F | now rewrite V, Vx].
Qed.

(** [x || 0] stands for the value of [x], 0 when [x] is null. *)
Lemma evals_or_else_0 (x : option number) :
  finite_or_null x -> evals (or_else x (Fin 0)) (valQ x).
Proof.
  destruct x as [v |]; simpl; intros Hx; [| apply evals_Fin].
  destruct (truthy v) eqn:E; [now apply evals_val |].
  split; [reflexivity |]. simpl. symmetry.
  apply (is_zero_val v Hx).
  unfold truthy in E. rewrite (finite_not_nan v Hx) in E.
  now apply negb_false_iff in E.
Qed.

(** Solves [evals e ?q] for a compound [e], leaving the finiteness of the
    atoms to the hypotheses. *)
Ltac evals_tac :=
  repeat first
    [ eapply evals_Fin
    | eapply evals_max
    | eapply evals_sub
    | eapply evals_add
    | eapply evals_mul
    | eapply evals_pow_nat
    | eapply evals_or_else_0; assumption
    | eapply evals_val; assumption ].

(** The clamp [Math.max(0, _)] of a finite number is a positive zero or a
    non-zero rational, never the negative zero. *)
Lemma max0_Fin (p : number) :
  finite p -> exists q, Math_max (Fin 0) p = Fin q.
Proof.
  unfold finite, Math_max.
  destruct p as [| | | | q]; simpl; try discriminate; intros _.
  - now exists 0.
  - destruct (Qlt_bool 0 q); [now exists q |].
    destruct (Qlt_bool q 0); now exists 0.
Qed.

Section ClosedForms.

Variable pow_real : number -> number -> number.
Variables (revenue shares m x : number).
Variable methodology : MultipleType.
Variable metrics : FinancialMetrics.

Hypothesis Frevenue : finite revenue.
Hypothesis Fshares : finite shares.
Hypothesis Fm : finite m.
Hypothesis Fx : finite x.
Hypothesis Fdebt : finite_or_null (netDebt metrics).

(** The fair value on rationals: the clamped quotient of the formula
    table. *)
Lemma calculateFairValuePrice_evals :
  ~ val shares == 0 ->
  evals
    (calculateFairValuePrice revenue shares m x methodology metrics)
    (Qmax 0 (equityQ methodology (val revenue) (val m) (val x)
               (valQ (netDebt metrics))
             / val shares)).
Proof.
  intros Hs. unfold calculateFairValuePrice.
  destruct methodology; simpl equityQ;
    (eapply evals_eq;
     [ eapply evals_max;
       [ eapply evals_Fin
       | eapply evals_div; [evals_tac | now eapply evals_val | exact Hs] ]
     | reflexivity ]).
Qed.

(** The price of a projected year on rationals. *)
Lemma calculateScenarioPrice_evals (g d : number) (i : nat) :
  finite g -> finite d ->
  ~ val shares == 0 -> ~ 1 + val d == 0 ->
  evals
    (calculateScenarioPrice pow_real revenue shares g m x d (of_nat i)
       methodology metrics)
    (Qmax 0 (equityQ methodology (val revenue * (1 + val g) ^ Z.of_nat i)
               (val m) (val x) (valQ (netDebt metrics))
             / (val shares * (1 + val d) ^ Z.of_nat i))).
Proof.
  intros Fg Fd Hs Hd.
  assert (Hp : ~ val shares * (1 + val d) ^ Z.of_nat i == 0).
  { intros H. apply Qmult_integral in H. destruct H as [H | H]; [tauto |].
    revert H. now apply Qpower_not_0. }
  unfold calculateScenarioPrice.
  rewrite projectedRevenue_of_nat, projectedShares_of_nat.
  destruct methodology; simpl equityQ;
    (eapply evals_eq;
     [ eapply evals_max;
       [ eapply evals_Fin
       | eapply evals_div; [evals_tac | evals_tac | exact Hp] ]
     | reflexivity ]).
Qed.

End ClosedForms.

(** ** Arithmetic on rationals used below *)

Lemma Qpower_base_le (a b : Q) (n : nat) :
  0 < a -> a <= b -> a ^ Z.of_nat n <= b ^ Z.of_nat n.
Proof.
  intros Ha Hab. induction n as [| n IH].
  - simpl. lra.
  - rewrite !Qpower_succ_nat.
    assert (Hp : 0 < a ^ Z.of_nat n) by (now apply Qpower_0_lt).
    apply Qmult_le_compat_nonneg; split; lra.
Qed.


Lemma Qmax0_scale (c a : Q) : 0 <= c -> Qmax 0 (c * a) == c * Qmax 0 a.
Proof.
  intros Hc. destruct (Qlt_le_dec a 0) as [Ha | Ha].
  - rewrite (Q.max_l 0 a) by lra.
    rewrite (Q.max_l 0 (c * a)) by nra. ring.
  - rewrite (Q.max_r 0 a) by lra.
    rewrite (Q.max_r 0 (c * a)) by nra. reflexivity.
Qed.

(** ** Prices as numbers *)

Lemma finite_max0_Fin (p : number) :
  finite (Math_max (Fin 0) p) -> exists q, Math_max (Fin 0) p = Fin q.
Proof.
  unfold finite, Math_max.
  destruct p as [| | | | q]; simpl; try discriminate; intros _.
  - now exists 0.
  - now exists 0.
  - destruct (Qlt_bool 0 q); [now exists q |].
    destruct (Qlt_bool q 0); now exists 0.
Qed.

(** Two finite clamped values that stand for the same rational are equal
    as numbers. *)
Lemma number_eq_max0 (p p' : number) (q : Q) :
  evals (Math_max (Fin 0) p) q -> evals (Math_max (Fin 0) p') q ->
  number_eq (Math_max (Fin 0) p) (Math_max (Fin 0) p').
Proof.
  intros [F V] [F' V'].
  destruct (finite_max0_Fin p F) as [a Ea].
  destruct (finite_max0_Fin p' F') as [b Eb].
  rewrite Ea, Eb in *. simpl in *. now rewrite V, V'.
Qed.

Lemma calculateFairValuePrice_is_max0
    (revenue shares m x : number) (methodology : MultipleType)
    (metrics : FinancialMetrics) :
  exists p, calculateFairValuePrice revenue shares m x methodology metrics
            = Math_max (Fin 0) p.
Proof.
  unfold calculateFairValuePrice. destruct methodology; eexists; reflexivity.
Qed.

Lemma calculateScenarioPrice_is_max0
    (pow_real : number -> number -> number)
    (revenue shares g m x d years : number) (methodology : MultipleType)
    (metrics : FinancialMetrics) :
  exists p, calculateScenarioPrice pow_real revenue shares g m x d years
              methodology metrics
            = Math_max (Fin 0) p.
Proof.
  unfold calculateScenarioPrice. destruct methodology; eexists; reflexivity.
Qed.

(** Two prices that stand for the same rational are equal as numbers. *)
Ltac prices_number_eq q :=
  match goal with
  | |- number_eq ?a ?b =>
      let Ha := fresh "Hprice" in let Hb := fresh "Hprice" in
      assert (Ha : evals a q); [| assert (Hb : evals b q);
        [| repeat match goal with
                  | H : evals (calculateFairValuePrice ?r ?s ?m ?x ?t ?k) _
                    |- _ =>
                      let p := fresh "p" in let E := fresh "E" in
                      destruct (calculateFairValuePrice_is_max0 r s m x t k)
                        as [p E];
                      rewrite E in *; clear E
                  | H : evals (calculateScenarioPrice ?f ?r ?s ?g ?m ?x ?d
                                 ?y ?t ?k) _ |- _ =>
                      let p := fresh "p" in let E := fresh "E" in
                      destruct (calculateScenarioPrice_is_max0
                                  f r s g m x d y t k) as [p E];
                      rewrite E in *; clear E
                  end;
          exact (number_eq_max0 _ _ q Ha Hb) ] ]
  end.

(** ** Compounding under the pe methodology *)

(** X1.  Under the pe methodology the price of projected year [i] is the
    fair value today compounded by [((1 + g) / (1 + d))^i], clamped at 0;
    when the shares dilute at the rate the revenue grows, the price of
    every year is the fair value today.  (In exact arithmetic.) *)
Theorem pe_price_compounds
    (pow_real : number -> number -> number)
    (revenue shares g m x d : number) (i : nat)
    (metrics : FinancialMetrics) :
  finite revenue -> finite shares -> finite g -> finite m -> finite x ->
  finite d -> ~ val shares == 0 -> ~ 1 + val d == 0 ->
  evals
    (calculateScenarioPrice pow_real revenue shares g m x d (of_nat i)
       pe metrics)
    (Qmax 0 (val revenue * val m * val x / val shares
             * ((1 + val g) / (1 + val d)) ^ Z.of_nat i))
  /\ (val g == val d ->
      number_eq
        (calculateScenarioPrice pow_real revenue shares g m x d (of_nat i)
           pe metrics)
        (calculateFairValuePrice revenue shares m x pe metrics)).
Proof.
  intros Fr Fs Fg Fm Fx Fd Hs Hd.
  assert (Hp : ~ (1 + val d) ^ Z.of_nat i == 0) by (now apply Qpower_not_0).
  assert (H : evals
                (calculateScenarioPrice pow_real revenue shares g m x d
                   (of_nat i) pe metrics)
                (Qmax 0 (val revenue * val m * val x / val shares
                         * ((1 + val g) / (1 + val d)) ^ Z.of_nat i))).
  { change (calculateScenarioPrice pow_real revenue shares g m x d
              (of_nat i) pe metrics)
      with (calculateScenarioPrice pow_real revenue shares g m x d
              (of_nat i) pe metrics_unknown).
    eapply evals_eq.
    - apply calculateScenarioPrice_evals; try assumption. exact I.
    - simpl equityQ. rewrite Qdiv_power.
      apply Q.max_compat; [reflexivity |]. field. split; assumption. }
  split; [exact H |].
  intros Egd.
  prices_number_eq (Qmax 0 (val revenue * val m * val x / val shares)).
  - eapply evals_eq; [exact H |].
    apply Q.max_compat; [reflexivity |].
    rewrite Egd.
    assert (E : (1 + val d) / (1 + val d) == 1) by (field; exact Hd).
    rewrite E, Qpower_1. ring.
  - change (calculateFairValuePrice revenue shares m x pe metrics)
      with (calculateFairValuePrice revenue shares m x pe metrics_unknown).
    eapply evals_eq.
    + apply calculateFairValuePrice_evals; try assumption. exact I.
    + reflexivity.
Qed.

Lemma pe_price_compounds_witness :
  evals
    (calculateScenarioPrice (fun _ _ => NaN) (Fin 1000) (Fin 100)
       (Fin (1 # 10)) (Fin (1 # 10)) (Fin 20) (Fin (1 # 10)) (of_nat 4)
       pe metrics_unknown)
    (Qmax 0 (val (Fin 1000) * val (Fin (1 # 10)) * val (Fin 20)
             / val (Fin 100)
             * ((1 + val (Fin (1 # 10))) / (1 + val (Fin (1 # 10))))
               ^ Z.of_nat 4))
  /\ number_eq
       (calculateScenarioPrice (fun _ _ => NaN) (Fin 1000) (Fin 100)
          (Fin (1 # 10)) (Fin (1 # 10)) (Fin 20) (Fin (1 # 10)) (of_nat 4)
          pe metrics_unknown)
       (calculateFairValuePrice (Fin 1000) (Fin 100) (Fin (1 # 10))
          (Fin 20) pe metrics_unknown).
Proof.
  destruct (pe_price_compounds (fun _ _ => NaN) (Fin 1000) (Fin 100)
              (Fin (1 # 10)) (Fin (1 # 10)) (Fin 20) (Fin (1 # 10)) 4
              metrics_unknown) as [Hform Hflat];
    try reflexivity; try (vm_compute; discriminate).
  split; [exact Hform | apply Hflat; reflexivity].
Defined.

(** ** Units, net debt and dilution *)

Lemma valQ_scaled (k : number) (debt : option number) :
  finite k -> finite_or_null debt ->
  finite_or_null (option_map (mul k) debt)
  /\ valQ (option_map (mul k) debt) == val k * valQ debt.
Proof.
  intros Fk Fd. destruct debt as [v |]; simpl.
  - apply (mul_finite k v Fk Fd).
  - split; [exact I | ring].
Qed.

(** X2.  In exact arithmetic, the fair value does not depend on the unit
    the snapshot is expressed in: multiplying revenue, share count and net
    debt by the same non-zero factor leaves the value of the price formula
    unchanged, for every methodology.  (On doubles the two prices are the
    same formula evaluated on scaled operands and may differ in the last
    digits.) *)
Theorem fair_value_scale_invariant
    (k revenue shares m x : number) (methodology : MultipleType)
    (metrics : FinancialMetrics) :
  finite k -> finite revenue -> finite shares -> finite m -> finite x ->
  finite_or_null (netDebt metrics) ->
  ~ val k == 0 -> ~ val shares == 0 ->
  number_eq
    (calculateFairValuePrice (mul k revenue) (mul k shares) m x methodology
       (with_netDebt (option_map (mul k) (netDebt metrics)) metrics))
    (calculateFairValuePrice revenue shares m x methodology metrics).
Proof.
  intros Fk Fr Fs Fm Fx Fd Hk Hs.
  destruct (valQ_scaled k (netDebt metrics) Fk Fd) as [Fd' Vd'].
  destruct (mul_finite k revenue Fk Fr) as [Fkr Vkr].
  destruct (mul_finite k shares Fk Fs) as [Fks Vks].
  assert (Hks : ~ val (mul k shares) == 0).
  { rewrite Vks. intros H. apply Qmult_integral in H. tauto. }
  prices_number_eq
    (Qmax 0 (equityQ methodology (val revenue) (val m) (val x)
               (valQ (netDebt metrics)) / val shares)).
  - eapply evals_eq.
    + apply calculateFairValuePrice_evals; try assumption.
    + change (netDebt (with_netDebt (option_map (mul k) (netDebt metrics))
                         metrics))
        with (option_map (mul k) (netDebt metrics)).
      destruct methodology; simpl equityQ; rewrite ?Vd', Vkr, Vks;
        (apply Q.max_compat; [reflexivity |]); field; split; assumption.
  - now apply calculateFairValuePrice_evals.
Qed.

(** Figures in millions against the same figures in units. *)
Lemma fair_value_scale_invariant_witness :
  number_eq
    (calculateFairValuePrice (mul (Fin 1000000) (Fin 1000))
       (mul (Fin 1000000) (Fin 100)) (Fin (1 # 10)) (Fin 12) evEbitda
       (with_netDebt
          (option_map (mul (Fin 1000000)) (netDebt metrics_sample_a))
          metrics_sample_a))
    (calculateFairValuePrice (Fin 1000) (Fin 100) (Fin (1 # 10)) (Fin 12)
       evEbitda metrics_sample_a).
Proof.
  apply fair_value_scale_invariant; try reflexivity;
    vm_compute; discriminate.
Defined.





Lemma valQ_null_or_zero (debt : option number) :
  null_or_zero debt -> finite_or_null debt /\ valQ debt == 0.
Proof.
  intros [-> | [z [-> Hz]]]; [split; [exact I | reflexivity] |].
  assert (Fz : finite z) by (destruct z; try discriminate; reflexivity).
  split; [exact Fz |]. simpl. now apply (is_zero_val z Fz).
Qed.

(** X5.  In exact arithmetic, without net debt the enterprise-value prices
    are fixed multiples of the pe price: the evEbit formula gives 1.3 times
    the pe price and the evEbitda formula 1.2 times the evEbit price, at the
    same margin and multiple.  (On doubles the products are rounded and the
    ratios hold up to the last digits only.) *)
Theorem ev_prices_without_net_debt
    (revenue shares m x : number) (metrics : FinancialMetrics) :
  finite revenue -> finite shares -> finite m -> finite x ->
  null_or_zero (netDebt metrics) -> ~ val shares == 0 ->
  val (calculateFairValuePrice revenue shares m x evEbit metrics)
  == (13 # 10) * val (calculateFairValuePrice revenue shares m x pe metrics)
  /\ val (calculateFairValuePrice revenue shares m x evEbitda metrics)
     == (12 # 10)
        * val (calculateFairValuePrice revenue shares m x evEbit metrics).
Proof.
  intros Fr Fs Fm Fx Hd Hs.
  destruct (valQ_null_or_zero _ Hd) as [Fd Vd].
  destruct (calculateFairValuePrice_evals revenue shares m x pe metrics
              Fr Fs Fm Fx Fd Hs) as [_ Vpe].
  destruct (calculateFairValuePrice_evals revenue shares m x evEbit metrics
              Fr Fs Fm Fx Fd Hs) as [_ Vebit].
  destruct (calculateFairValuePrice_evals revenue shares m x evEbitda metrics
              Fr Fs Fm Fx Fd Hs) as [_ Vebitda].
  rewrite Vpe, Vebit, Vebitda. simpl equityQ. rewrite Vd.
  rewrite <- !Qmax0_scale by lra.
  split; apply Q.max_compat; try reflexivity; field; exact Hs.
Qed.

Lemma ev_prices_without_net_debt_witness :
  val (calculateFairValuePrice (Fin 1000) (Fin 100) (Fin (1 # 10)) (Fin 20)
         evEbit metrics_unknown)
  == (13 # 10)
     * val (calculateFairValuePrice (Fin 1000) (Fin 100) (Fin (1 # 10))
              (Fin 20) pe metrics_unknown)
  /\ val (calculateFairValuePrice (Fin 1000) (Fin 100) (Fin (1 # 10))
            (Fin 20) evEbitda metrics_unknown)
     == (12 # 10)
        * val (calculateFairValuePrice (Fin 1000) (Fin 100) (Fin (1 # 10))
                 (Fin 20) evEbit metrics_unknown).
Proof.
  apply ev_prices_without_net_debt; try reflexivity.
  - now left.
  - vm_compute. discriminate.
Defined.

(** ** The predictor's assumptions *)

Import PredictorState.

(** X6.  Whatever the snapshot and the market capitalisation hold, the
    current multiple of every methodology is a non-zero number and never
    NaN.  It is the multiple the component has for the methodology (the
    trailing P/E, or the computed EV multiple) when that one is a number
    other than zero and NaN, and the default of the methodology (20, 15,
    12, 3, 20) when it is missing, zero or NaN. *)
Theorem currentMultiples_truthy
    (metrics : FinancialMetrics) (marketCap : option number)
    (type : MultipleType) :
  let current := currentMultiples metrics marketCap type in
  let known :=
    match type with
    | pe => peRatio metrics
    | evEbit => computedEvToEbit metrics marketCap
    | evEbitda => computedEvToEbitda metrics marketCap
    | evRevenue => computedEvToRevenue metrics marketCap
    | evFcf => computedEvToFcf metrics marketCap
    end in
  let default :=
    match type with
    | pe => Fin 20
    | evEbit => Fin 15
    | evEbitda => Fin 12
    | evRevenue => Fin 3
    | evFcf => Fin 20
    end in
  truthy current = true
  /\ is_zero current = false
  /\ is_nan current = false
  /\ (known = None -> current = default)
  /\ (forall v, known = Some v -> is_zero v = true -> current = default)
  /\ (forall v, known = Some v -> is_nan v = true -> current = default)
  /\ (forall v, known = Some v -> is_zero v = false -> is_nan v = false ->
      current = v).
Proof.
  intros current known default.
  assert (H : truthy current = true).
  { subst current. destruct type; apply truthy_or_else; reflexivity. }
  split; [exact H |].
  unfold truthy in H. rewrite negb_true_iff, orb_false_iff in H.
  destruct H as [Hn Hz].
  split; [exact Hz |]. split; [exact Hn |].
  assert (E : current = or_else known default)
    by (subst current known default; destruct type; reflexivity).
  rewrite E. clear E Hn Hz.
  split; [now intros -> |].
  split; [| split]; intros v -> ; simpl; unfold truthy.
  - intros ->. now rewrite orb_true_r.
  - now intros ->.
  - now intros -> ->.
Qed.

(** With no P/E the default 20 is used, a P/E of zero or NaN is replaced by
    it as well, and a negative P/E is kept. *)
Example currentMultiples_example :
  currentMultiples metrics_unknown None pe = Fin 20
  /\ currentMultiples metrics_unknown (Some (Fin 4800)) evRevenue = Fin 3
  /\ currentMultiples metrics_negative_pe None pe = Fin (-8).
Proof. repeat split. Qed.

(** X7.  Selecting a methodology keeps the growth rates, the margins, the
    dilution rate and the horizon, and replaces the exit multiples: a
    second selection overrides the first, an earlier edit of an exit
    multiple is discarded, and an edit of a growth rate or a margin can be
    made before or after the selection with the same result. *)
Theorem selectMethodology_composition
    (metrics : FinancialMetrics) (marketCap : option number)
    (type type' : MultipleType) (scenario : ScenarioKey) (field : FieldKey)
    (value : number) (a : ProjectionAssumptions) :
  selectMethodology metrics marketCap type
    (selectMethodology metrics marketCap type' a)
  = selectMethodology metrics marketCap type a
  /\ selectMethodology metrics marketCap type
       (updateAssumption scenario ExitMultiple value a)
     = selectMethodology metrics marketCap type a
  /\ (field <> ExitMultiple ->
      selectMethodology metrics marketCap type
        (updateAssumption scenario field value a)
      = updateAssumption scenario field value
          (selectMethodology metrics marketCap type a))
  /\ revenueGrowth (selectMethodology metrics marketCap type a)
     = revenueGrowth a
  /\ targetMargin (selectMethodology metrics marketCap type a)
     = targetMargin a
  /\ dilutionRate (selectMethodology metrics marketCap type a)
     = dilutionRate a
  /\ years (selectMethodology metrics marketCap type a) = years a.
Proof.
  split; [reflexivity |].
  split; [destruct scenario; reflexivity |].
  split; [| repeat split].
  intros Hf. destruct field; [reflexivity | reflexivity | congruence].
Qed.



(** X9.  [updateAssumption] writes one slot: the slot reads back the new
    value, every other slot of the three triples, the methodology, the
    dilution rate and the horizon are unchanged, and a second write to the
    same slot overrides the first. *)
Theorem updateAssumption_slot
    (scenario scenario' : ScenarioKey) (field field' : FieldKey)
    (value value' : number) (a : ProjectionAssumptions) :
  get_scenario scenario
    (get_field field (updateAssumption scenario field value a))
  = value
  /\ (scenario' <> scenario \/ field' <> field ->
      get_scenario scenario'
        (get_field field' (updateAssumption scenario field value a))
      = get_scenario scenario' (get_field field' a))
  /\ multipleType (updateAssumption scenario field value a) = multipleType a
  /\ dilutionRate (updateAssumption scenario field value a) = dilutionRate a
  /\ years (updateAssumption scenario field value a) = years a
  /\ updateAssumption scenario field value
       (updateAssumption scenario field value' a)
     = updateAssumption scenario field value a.
Proof.
  split; [destruct scenario, field; reflexivity |].
  split.
  - intros [H | H]; destruct scenario, scenario', field, field';
      try reflexivity; congruence.
  - repeat split; destruct scenario, field; reflexivity.
Qed.

(** X10.  The scenarios are independent: editing a parameter of one
    scenario leaves the projected prices of the two other scenarios, and
    the years, unchanged. *)
Theorem updateAssumption_other_scenarios
    (pow_real : number -> number -> number)
    (metrics : FinancialMetrics) (a : ProjectionAssumptions)
    (currentYear : Z)
    (scenario other : ScenarioKey) (field : FieldKey) (value : number) :
  other <> scenario ->
  map (get_case other)
    (calculateProjections pow_real metrics
       (updateAssumption scenario field value a) currentYear)
  = map (get_case other)
      (calculateProjections pow_real metrics a currentYear)
  /\ map year
       (calculateProjections pow_real metrics
          (updateAssumption scenario field value a) currentYear)
     = map year (calculateProjections pow_real metrics a currentYear).
Proof.
  intros Hne.
  rewrite !calculateProjections_map, !map_map.
  assert (Hy : years (updateAssumption scenario field value a) = years a)
    by (destruct scenario, field; reflexivity).
  rewrite Hy.
  split; apply map_ext; intros i.
  - destruct scenario, other, field; try congruence; reflexivity.
  - destruct scenario, field; reflexivity.
Qed.

Lemma updateAssumption_other_scenarios_witness :
  map (get_case Base)
    (calculateProjections (fun _ _ => NaN) metrics_sample_a
       (updateAssumption Bear TargetMargin (Fin (-40))
          (PricePredictor.initialAssumptions metrics_sample_b)) 2024)
  = map (get_case Base)
      (calculateProjections (fun _ _ => NaN) metrics_sample_a
         (PricePredictor.initialAssumptions metrics_sample_b) 2024)
  /\ map year
       (calculateProjections (fun _ _ => NaN) metrics_sample_a
          (updateAssumption Bear TargetMargin (Fin (-40))
             (PricePredictor.initialAssumptions metrics_sample_b)) 2024)
     = map year
         (calculateProjections (fun _ _ => NaN) metrics_sample_a
            (PricePredictor.initialAssumptions metrics_sample_b) 2024).
Proof.
  apply updateAssumption_other_scenarios. discriminate.
Defined.

(** ** The chart and the implied returns *)

Lemma truthy_val_not_0 (x : number) :
  finite x -> truthy x = true -> ~ val x == 0.
Proof.
  intros Fx Tx. apply (is_zero_false_val x Fx). now apply truthy_not_zero.
Qed.

Lemma shares_floor_evals (shares : option number) :
  finite_or_null shares ->
  finite (or_else shares (Fin 1)) /\ ~ val (or_else shares (Fin 1)) == 0.
Proof.
  intros Fs.
  assert (F : finite (or_else shares (Fin 1)))
    by (apply fin_or_else; [exact Fs | reflexivity]).
  split; [exact F |].
  apply truthy_val_not_0; [exact F |]. apply truthy_or_else. reflexivity.
Qed.

(** The scenario price of year 0 stands for the same rational as the fair
    value. *)
Lemma calculateScenarioPrice_year0
    (pow_real : number -> number -> number)
    (revenue shares g m x d : number) (methodology : MultipleType)
    (metrics : FinancialMetrics) :
  finite revenue -> finite shares -> finite m -> finite x ->
  finite_or_null (netDebt metrics) -> ~ val shares == 0 ->
  number_eq
    (calculateFairValuePrice revenue shares m x methodology metrics)
    (calculateScenarioPrice pow_real revenue shares g m x d (of_nat 0)
       methodology metrics).
Proof.
  intros Fr Fs Fm Fx Fd Hs.
  prices_number_eq
    (Qmax 0 (equityQ methodology (val revenue) (val m) (val x)
               (valQ (netDebt metrics)) / val shares)).
  - now apply calculateFairValuePrice_evals.
  - assert (Hs1 : ~ val shares * 1 == 0) by (intros H; apply Hs; lra).
    unfold calculateScenarioPrice.
    rewrite projectedRevenue_of_nat, projectedShares_of_nat.
    cbn [pow_nat].
    destruct methodology; simpl equityQ;
      (eapply evals_eq;
       [ eapply evals_max;
         [ eapply evals_Fin
         | eapply evals_div; [evals_tac | evals_tac | exact Hs1] ]
       | apply Q.max_compat; [reflexivity |]; field; exact Hs ]).
Qed.

(** X11.  The chart is the price series of the years 0 to
    [assumptions.years]: it has one point more than there are projected
    years, the point at index [k] carries the year [currentYear + k], and
    its three prices are the scenario prices of year [k], the fair value
    today being the price of year 0 (no growth, no dilution). *)
Theorem fullChartData_series
    (pow_real : number -> number -> number)
    (metrics : FinancialMetrics) (a : ProjectionAssumptions)
    (currentYear : Z) :
  finite_or_null (revenue metrics) ->
  finite_or_null (sharesOutstanding metrics) ->
  finite_or_null (netDebt metrics) ->
  finite_assumptions a ->
  let chart := fullChartData pow_real metrics a currentYear in
  let price growth margin multiple (k : nat) :=
    calculateScenarioPrice pow_real
      (or_else (revenue metrics) (Fin 0))
      (or_else (sharesOutstanding metrics) (Fin 1))
      (div growth (Fin 100)) (div margin (Fin 100)) multiple
      (div (dilutionRate a) (Fin 100)) (of_nat k) (multipleType a)
      metrics in
  length chart = S (years a)
  /\ forall k, (k <= years a)%nat ->
       exists point,
         nth_error chart k = Some point
         /\ point_year point = (currentYear + Z.of_nat k)%Z
         /\ number_eq (point_Bear point)
              (price (bear (revenueGrowth a)) (bear (targetMargin a))
                 (bear (exitMultiple a)) k)
         /\ number_eq (point_Base point)
              (price (base (revenueGrowth a)) (base (targetMargin a))
                 (base (exitMultiple a)) k)
         /\ number_eq (point_Bull point)
              (price (bull (revenueGrowth a)) (bull (targetMargin a))
                 (bull (exitMultiple a)) k).
Proof.
  intros Fr Fs Fd [_ [[Fm1 [Fm2 Fm3]] [[Fx1 [Fx2 Fx3]] _]]] chart price.
  subst chart price. unfold fullChartData, chartData.
  split.
  - simpl. f_equal. rewrite length_map, calculateProjections_map.
    now rewrite length_map, length_seq.
  - intros [| k] Hk.
    + eexists. split; [reflexivity |].
      split; [simpl; lia |].
      destruct (shares_floor_evals _ Fs) as [FS HS].
      assert (FR : finite (or_else (revenue metrics) (Fin 0)))
        by (apply fin_or_else; [exact Fr | reflexivity]).
      simpl. repeat split;
        apply calculateScenarioPrice_year0; auto with fin.
    + simpl nth_error. rewrite nth_error_map.
      rewrite nth_error_calculateProjections by lia.
      eexists. split; [reflexivity |].
      split; [reflexivity |].
      simpl. repeat split; apply number_eq_refl.
Qed.

Lemma fullChartData_series_witness :
  length (fullChartData (fun _ _ => NaN) metrics_sample_a
            (PricePredictor.initialAssumptions metrics_sample_b) 2024)
  = 6%nat
  /\ exists point,
       nth_error (fullChartData (fun _ _ => NaN) metrics_sample_a
                    (PricePredictor.initialAssumptions metrics_sample_b)
                    2024) 0
       = Some point
       /\ point_year point = 2024%Z.
Proof.
  destruct (fullChartData_series (fun _ _ => NaN) metrics_sample_a
              (PricePredictor.initialAssumptions metrics_sample_b) 2024)
    as [Hlen Hpoints]; try reflexivity.
  - vm_compute. tauto.
  - split; [exact Hlen |].
    destruct (Hpoints 0%nat) as [point [Hp [Hy _]]]; [simpl; lia |].
    exists point. split; [exact Hp | exact Hy].
Defined.

Lemma finalYear_calculateProjections
    (pow_real : number -> number -> number)
    (metrics : FinancialMetrics) (a : ProjectionAssumptions)
    (currentYear : Z) :
  finalYear (calculateProjections pow_real metrics a currentYear)
  = match years a with
    | O => None
    | S _ =>
        Some (projection_at pow_real metrics a currentYear
                (or_else (revenue metrics) (Fin 0))
                (or_else (sharesOutstanding metrics) (Fin 1))
                (years a))
    end.
Proof.
  unfold finalYear.
  pose proof (nth_error_calculateProjections pow_real metrics a currentYear)
    as Hnth.
  assert (Hlen : length (calculateProjections pow_real metrics a currentYear)
                 = years a).
  { rewrite calculateProjections_map. now rewrite length_map, length_seq. }
  destruct (calculateProjections pow_real metrics a currentYear)
    as [| p ps] eqn:E.
  - simpl in Hlen. now rewrite <- Hlen.
  - rewrite Hlen. destruct (years a) as [| n]; [discriminate |].
    rewrite Hnth by lia. do 3 f_equal. lia.
Qed.

(** X12.  The implied returns are always numbers.  They are computed from
    the prices of the last projected year, [currentYear + years]; they are
    all 0 when there is no projected year or when the current price is not
    positive, and the return of a scenario whose final price is zero (a
    price clamped at 0) is shown as 0, not as -100. *)
Theorem impliedReturns_final_year
    (pow_real : number -> number -> number)
    (currentPrice : number) (metrics : FinancialMetrics)
    (a : ProjectionAssumptions) (currentYear : Z) :
  let returns := impliedReturns pow_real currentPrice metrics a currentYear in
  let zeros := {| bear := Fin 0; base := Fin 0; bull := Fin 0 |} in
  let final :=
    projection_at pow_real metrics a currentYear
      (or_else (revenue metrics) (Fin 0))
      (or_else (sharesOutstanding metrics) (Fin 1)) (years a) in
  let cagr price :=
    nullish (calculateCAGR pow_real (Some currentPrice) (Some price)
               (of_nat (years a))) (Fin 0) in
  (years a = O -> returns = zeros)
  /\ ((1 <= years a)%nat ->
      year final = (currentYear + Z.of_nat (years a))%Z
      /\ returns = {| bear := cagr (bearCase final);
                      base := cagr (baseCase final);
                      bull := cagr (bullCase final) |})
  /\ (leb currentPrice (Fin 0) = true -> returns = zeros)
  /\ ((1 <= years a)%nat -> is_zero (bearCase final) = true ->
      bear returns = Fin 0)
  /\ ((1 <= years a)%nat -> is_zero (baseCase final) = true ->
      base returns = Fin 0)
  /\ ((1 <= years a)%nat -> is_zero (bullCase final) = true ->
      bull returns = Fin 0).
Proof.
  intros returns zeros final cagr.
  subst returns zeros final cagr. unfold impliedReturns.
  rewrite finalYear_calculateProjections.
  destruct (years a) as [| n].
  - split; [reflexivity |]. split; [intros H; lia |].
    split; [reflexivity |]. repeat split; intros H; lia.
  - assert (Hzero : forall price,
               is_zero price = true ->
               calculateCAGR pow_real (Some currentPrice) (Some price)
                 (of_nat (S n)) = None).
    { intros price Hz. unfold calculateCAGR, not_, truthy.
      rewrite Hz. simpl. now rewrite !orb_true_r. }
    assert (Hcp : leb currentPrice (Fin 0) = true ->
                  forall price,
                    calculateCAGR pow_real (Some currentPrice) (Some price)
                      (of_nat (S n)) = None).
    { intros Hle price. unfold calculateCAGR. simpl nullish.
      rewrite Hle. now rewrite !orb_true_r. }
    split; [discriminate |].
    split; [intros _; split; reflexivity |].
    split; [intros Hle; now rewrite !(Hcp Hle) |].
    repeat split; intros _ Hz; cbn [bear base bull];
      now rewrite (Hzero _ Hz).
Qed.

(** A loss-making company under pe: the prices of the last year are
    clamped at 0 and every return is shown as 0. *)
Example impliedReturns_clamped_example :
  impliedReturns (fun _ _ => NaN) (Fin 50)
    (metrics_with (Some (Fin (-12))) (Some (Fin 1000)) None
       (Some (Fin 100)))
    (PricePredictor.initialAssumptions
       (metrics_with (Some (Fin (-12))) (Some (Fin 1000)) None
          (Some (Fin 100))))
    2024
  = {| bear := Fin 0; base := Fin 0; bull := Fin 0 |}.
Proof. vm_compute. reflexivity. Qed.

(** ** Order of the default projections *)

Lemma Qmax0_product_le (r p1 p2 m1 m2 x1 x2 t : Q) :
  0 <= r -> 0 <= p1 -> p1 <= p2 -> m1 <= m2 -> 0 <= x1 -> x1 <= x2 ->
  0 < t ->
  Qmax 0 (r * p1 * m1 * x1 / t) <= Qmax 0 (r * p2 * m2 * x2 / t).
Proof.
  intros Hr Hp1 Hp Hm Hx1 Hx Ht.
  assert (Ha1 : 0 <= r * p1 * x1).
  { apply Qmult_le_0_compat; [apply Qmult_le_0_compat |]; assumption. }
  assert (Ha : r * p1 * x1 <= r * p2 * x2).
  { apply Qmult_le_compat_nonneg; split; try assumption.
    - apply Qmult_le_0_compat; assumption.
    - rewrite (Qmult_comm r p1), (Qmult_comm r p2).
      apply Qmult_le_compat_r; assumption. }
  destruct (Qlt_le_dec 0 m1) as [Hpos | Hneg].
  - apply Q.max_le_compat_l.
    unfold Qdiv. apply Qmult_le_compat_r;
      [| apply Qinv_le_0_compat; lra].
    assert (E1 : r * p1 * m1 * x1 == r * p1 * x1 * m1) by ring.
    assert (E2 : r * p2 * m2 * x2 == r * p2 * x2 * m2) by ring.
    rewrite E1, E2.
    apply Qmult_le_compat_nonneg; split; lra.
  - assert (E : r * p1 * m1 * x1 / t <= 0).
    { apply Qle_shift_div_r; [exact Ht |].
      assert (E1 : r * p1 * m1 * x1 == r * p1 * x1 * m1) by ring.
      rewrite E1. nra. }
    rewrite (Q.max_l 0 (r * p1 * m1 * x1 / t)) by exact E.
    apply Q.le_max_l.
Qed.

(** Under pe, a price does not fall when the growth rate, the margin and
    the multiple all rise, for a non-negative revenue. *)
Lemma pe_scenario_le
    (pow_real : number -> number -> number)
    (R S G1 G2 M1 M2 X1 X2 D : number) (i : nat)
    (metrics : FinancialMetrics) :
  finite R -> finite S -> finite G1 -> finite G2 -> finite M1 ->
  finite M2 -> finite X1 -> finite X2 -> finite D ->
  0 <= val R -> 0 < val S -> -100 < val G1 -> val G1 <= val G2 ->
  val M1 <= val M2 -> 0 <= val X1 -> val X1 <= val X2 -> -100 < val D ->
  leb (calculateScenarioPrice pow_real R S (div G1 (Fin 100))
         (div M1 (Fin 100)) X1 (div D (Fin 100)) (of_nat i) pe metrics)
      (calculateScenarioPrice pow_real R S (div G2 (Fin 100))
         (div M2 (Fin 100)) X2 (div D (Fin 100)) (of_nat i) pe metrics)
  = true.
Proof.
  intros FR FS FG1 FG2 FM1 FM2 FX1 FX2 FD HR HS HG1 HG HM HX1 HX HD.
  assert (HS' : ~ val S == 0) by lra.
  pose proof (one_plus_percent_pos (val D) HD) as PD.
  pose proof (one_plus_percent_pos (val G1) HG1) as PG1.
  assert (HD' : ~ 1 + val (div D (Fin 100)) == 0).
  { rewrite (val_percent D FD). lra. }
  change (calculateScenarioPrice pow_real R S (div G1 (Fin 100))
            (div M1 (Fin 100)) X1 (div D (Fin 100)) (of_nat i) pe metrics)
    with (calculateScenarioPrice pow_real R S (div G1 (Fin 100))
            (div M1 (Fin 100)) X1 (div D (Fin 100)) (of_nat i) pe
            metrics_unknown).
  change (calculateScenarioPrice pow_real R S (div G2 (Fin 100))
            (div M2 (Fin 100)) X2 (div D (Fin 100)) (of_nat i) pe metrics)
    with (calculateScenarioPrice pow_real R S (div G2 (Fin 100))
            (div M2 (Fin 100)) X2 (div D (Fin 100)) (of_nat i) pe
            metrics_unknown).
  destruct (calculateScenarioPrice_evals pow_real R S (div M1 (Fin 100)) X1
              pe metrics_unknown FR FS (fin_percent M1 FM1) FX1 I
              (div G1 (Fin 100)) (div D (Fin 100)) i
              (fin_percent G1 FG1) (fin_percent D FD) HS' HD') as [Fa Va].
  destruct (calculateScenarioPrice_evals pow_real R S (div M2 (Fin 100)) X2
              pe metrics_unknown FR FS (fin_percent M2 FM2) FX2 I
              (div G2 (Fin 100)) (div D (Fin 100)) i
              (fin_percent G2 FG2) (fin_percent D FD) HS' HD') as [Fb Vb].
  apply (leb_val _ _ Fa Fb). rewrite Va, Vb. simpl equityQ.
  rewrite !val_percent by assumption.
  apply Qmax0_product_le.
  - exact HR.
  - apply Qlt_le_weak, Qpower_0_lt, PG1.
  - apply Qpower_base_le; [exact PG1 |].
    unfold Qdiv. change (/ 100) with (1 # 100). lra.
  - unfold Qdiv. change (/ 100) with (1 # 100). lra.
  - exact HX1.
  - exact HX.
  - apply Qmult_lt_0_compat; [exact HS |]. now apply Qpower_0_lt.
Qed.

(** X13.  In exact arithmetic, with the default assumptions of a snapshot
    whose revenue, share count and trailing P/E are not negative (each may
    be missing or zero, the defaults 0, 1 and 20 then apply), every
    projected year has bear <= base <= bull, whatever the sign of the net
    margin.  (Intermediate results are exact rationals here; figures so
    large that a product overflows on doubles are outside the
    statement.) *)
Theorem default_projections_ordered
    (pow_real : number -> number -> number)
    (metrics : FinancialMetrics) (currentYear : Z) :
  finite_or_null (netMargin metrics) ->
  finite_or_null (revenue metrics) ->
  finite_or_null (sharesOutstanding metrics) ->
  finite_or_null (peRatio metrics) ->
  0 <= valQ (revenue metrics) ->
  0 <= valQ (sharesOutstanding metrics) ->
  0 <= valQ (peRatio metrics) ->
  Forall (fun p =>
            leb (bearCase p) (baseCase p) = true
            /\ leb (baseCase p) (bullCase p) = true)
    (calculateProjections pow_real metrics
       (PricePredictor.initialAssumptions metrics) currentYear).
Proof.
  intros Fm Fr Fs Fp Hr Hs Hp.
  rewrite calculateProjections_map.
  apply Forall_map, Forall_forall. intros i _.
  (* revenue, shares, multiple *)
  destruct (evals_or_else_0 _ Fr) as [FR VR].
  destruct (shares_floor_evals _ Fs) as [FS NS].
  assert (PS : 0 < val (or_else (sharesOutstanding metrics) (Fin 1))).
  { destruct (sharesOutstanding metrics) as [v |]; simpl in *;
      [| reflexivity].
    destruct (truthy v); simpl in *; [lra | reflexivity]. }
  set (c := or_else (peRatio metrics) (Fin 20)).
  assert (Fc : finite c) by (apply fin_or_else; [exact Fp | reflexivity]).
  assert (Pc : 0 < val c).
  { subst c. destruct (peRatio metrics) as [v |]; simpl in *;
      [| reflexivity].
    destruct (truthy v) eqn:E; simpl; [| reflexivity].
    pose proof (truthy_val_not_0 v Fp E). lra. }
  destruct (mul_finite c (Fin (7 # 10)) Fc (fin_Fin _)) as [Fb Vb].
  destruct (mul_finite c (Fin (13 # 10)) Fc (fin_Fin _)) as [Fu Vu].
  simpl val in Vb, Vu.
  (* margins *)
  assert (Fcm : finite (PricePredictor.currentMargin metrics)).
  { unfold PricePredictor.currentMargin.
    destruct (netMargin metrics); [exact Fm | reflexivity]. }
  assert (Fsp : finite (PricePredictor.marginSpread metrics)).
  { unfold PricePredictor.marginSpread. auto with fin. }
  assert (Psp : 0 <= val (PricePredictor.marginSpread metrics)).
  { unfold PricePredictor.marginSpread.
    destruct (max_finite
                (mul (Math_abs (PricePredictor.currentMargin metrics))
                   (Fin (25 # 100))) (Fin 5)) as [_ V];
      [auto with fin | reflexivity |].
    rewrite V. simpl val.
    apply Qle_trans with 5; [discriminate | apply Q.le_max_r]. }
  destruct (sub_finite _ _ Fcm Fsp) as [Fmb Vmb].
  destruct (add_finite _ _ Fcm Fsp) as [Fmu Vmu].
  unfold projection_at, PricePredictor.initialAssumptions.
  cbn [bearCase baseCase bullCase revenueGrowth targetMargin exitMultiple
       multipleType dilutionRate bear base bull].
  fold c.
  split; apply pe_scenario_le; auto with fin;
    try (rewrite VR; exact Hr);
    try (simpl val; lra);
    try (rewrite ?Vb, ?Vu; lra);
    try (rewrite ?Vmb, ?Vmu; lra).
Qed.

Lemma default_projections_ordered_witness :
  Forall (fun p =>
            leb (bearCase p) (baseCase p) = true
            /\ leb (baseCase p) (bullCase p) = true)
    (calculateProjections (fun _ _ => NaN) metrics_sample_b
       (PricePredictor.initialAssumptions metrics_sample_b) 2024).
Proof.
  apply default_projections_ordered; try reflexivity;
    vm_compute; discriminate.
Defined.

(** With a negative trailing P/E the default projections need not be
    ordered: a negative margin times a negative multiple is a positive
    price, and in the first projected year the bull price is below the bear
    price. *)
Example default_projections_negative_pe :
  exists p,
    nth_error
      (calculateProjections (fun _ _ => NaN) metrics_negative_pe
         (PricePredictor.initialAssumptions metrics_negative_pe) 2024) 0
    = Some p
    /\ ltb (bullCase p) (bearCase p) = true.
Proof. eexists. split; [reflexivity | vm_compute; reflexivity]. Qed.

(** ** The two tabs agree on the multiples *)





(** ** The margin card *)

(** X15.  The margin card shows a change of 0, marked as an increase,
    whenever either margin is missing, zero or NaN; for two finite non-zero
    margins the change is their difference and it is marked as an increase
    exactly when the current margin is at least the margin of ten years
    ago. *)
Theorem MarginCard_change
    (current tenYearAgo : option number) :
  (truthy_opt current && truthy_opt tenYearAgo = false ->
   MarginCard.change current tenYearAgo = Fin 0
   /\ MarginCard.isPositive current tenYearAgo = true)
  /\ (forall c t,
        current = Some c -> tenYearAgo = Some t ->
        finite c -> finite t -> truthy c = true -> truthy t = true ->
        MarginCard.change current tenYearAgo = sub c t
        /\ val (MarginCard.change current tenYearAgo) == val c - val t
        /\ (MarginCard.isPositive current tenYearAgo = true
            <-> val t <= val c)).
Proof.
  unfold MarginCard.isPositive, MarginCard.change.
  split.
  - intros ->. split; reflexivity.
  - intros c t -> -> Fc Ft Tc Tt.
    unfold truthy_opt, not_, to_number. simpl.
    rewrite Tc, Tt. simpl.
    destruct (sub_finite c t Fc Ft) as [F V].
    split; [reflexivity |]. split; [exact V |].
    rewrite (leb_val (Fin 0) (sub c t) (fin_Fin 0) F), V. simpl val.
    split; intros H; lra.
Qed.

(** A current margin of exactly 0 against 20 ten years ago: the card shows
    no change, marked as an increase. *)
Example MarginCard_zero_margin :
  MarginCard.change (Some (Fin 0)) (Some (Fin 20)) = Fin 0
  /\ MarginCard.isPositive (Some (Fin 0)) (Some (Fin 20)) = true.
Proof. split; reflexivity. Qed.

(** ** Averages and bars of the overview *)

Import FinancialOverview.

Lemma fold_left_add_evals (l : list number) (acc : number) (q : Q) :
  Forall finite l -> evals acc q ->
  evals (fold_left add l acc) (q + sumQ l).
Proof.
  revert acc q. induction l as [| v l IH]; intros acc q Hl Ha; simpl.
  - eapply evals_eq; [exact Ha | ring].
  - inversion Hl as [| ? ? Fv Hl']; subst.
    eapply evals_eq.
    + apply IH; [exact Hl' |].
      apply evals_add; [exact Ha | now apply evals_val].
    + ring.
Qed.

Lemma sumQ_bounds (l : list number) (lo hi : Q) :
  Forall (fun v => lo <= val v /\ val v <= hi) l ->
  inject_Z (Z.of_nat (length l)) * lo <= sumQ l
  /\ sumQ l <= inject_Z (Z.of_nat (length l)) * hi.
Proof.
  induction 1 as [| v l [Hlo Hhi] _ [IHlo IHhi]].
  - cbn [length sumQ]. change (inject_Z (Z.of_nat 0)) with 0. split; lra.
  - cbn [length sumQ]. rewrite Nat2Z.inj_succ, <- Z.add_1_l, inject_Z_plus.
    change (inject_Z 1) with 1. split; lra.
Qed.

Lemma valid_values_valid (values : list (option number)) :
  valid_values (map Some (valid_values values)) = valid_values values.
Proof.
  unfold valid_values.
  induction values as [| [x |] values IH]; simpl; [reflexivity | | exact IH].
  destruct (is_nan x) eqn:E; simpl; [exact IH |].
  rewrite E. simpl. now rewrite IH.
Qed.

(** X16.  [calculateAverage] ignores null and NaN entries and is 0 when no
    entry is left.  Otherwise, in exact arithmetic, the average of finite
    entries is finite and lies between any lower and upper bound of the
    entries that are left.  (On doubles the running sum is rounded and may
    overflow, so the bounds hold up to rounding only.) *)
Theorem calculateAverage_bounds (values : list (option number)) :
  calculateAverage (map Some (valid_values values))
  = calculateAverage values
  /\ (valid_values values = [] -> calculateAverage values = Fin 0)
  /\ (forall lo hi,
        valid_values values <> [] ->
        Forall finite (valid_values values) ->
        Forall (fun v => lo <= val v /\ val v <= hi)
          (valid_values values) ->
        finite (calculateAverage values)
        /\ lo <= val (calculateAverage values)
        /\ val (calculateAverage values) <= hi).
Proof.
  unfold calculateAverage. rewrite valid_values_valid.
  split; [reflexivity |].
  split; [now intros -> |].
  intros lo hi Hne Hfin Hb.
  destruct (valid_values values) as [| v l] eqn:E; [congruence |].
  set (valid := v :: l) in *.
  destruct (fold_left_add_evals valid (Fin 0) 0 Hfin (evals_Fin 0))
    as [Fs Vs].
  destruct (sumQ_bounds valid lo hi Hb) as [Hlo Hhi].
  assert (Hn : 0 < inject_Z (Z.of_nat (length valid))).
  { subst valid. cbn [length]. rewrite Nat2Z.inj_succ.
    unfold Qlt, inject_Z. simpl. lia. }
  set (n := inject_Z (Z.of_nat (length valid))) in *.
  assert (En : val (of_nat (length valid)) = n) by reflexivity.
  destruct (div_finite (fold_left add valid (Fin 0))
              (of_nat (length valid)) Fs (finite_of_nat _)) as [Fa Va].
  { apply (is_zero_false_val _ (finite_of_nat _)). rewrite En. lra. }
  split; [exact Fa |].
  rewrite Va, Vs, En.
  split.
  - apply Qle_shift_div_l; [exact Hn | lra].
  - apply Qle_shift_div_r; [exact Hn | lra].
Qed.

(** Price-earnings ratios 10, unknown, NaN and 30 average to 20. *)
Example calculateAverage_example :
  number_eq
    (calculateAverage [Some (Fin 10); None; Some NaN; Some (Fin 30)])
    (Fin 20).
Proof. reflexivity. Qed.

Lemma calculateAverage_bounds_witness :
  finite (calculateAverage [Some (Fin 10); None; Some NaN; Some (Fin 30)])
  /\ 10 <= val (calculateAverage
                  [Some (Fin 10); None; Some NaN; Some (Fin 30)])
  /\ val (calculateAverage [Some (Fin 10); None; Some NaN; Some (Fin 30)])
     <= 30.
Proof.
  destruct (calculateAverage_bounds
              [Some (Fin 10); None; Some NaN; Some (Fin 30)])
    as [_ [_ Hb]].
  apply Hb.
  - discriminate.
  - repeat constructor.
  - repeat constructor; discriminate.
Defined.

(** X17.  The width of a margin bar is the margin clamped to the range 0 to
    100: for every margin other than NaN, the infinities included, it is a
    finite number between 0 and 100, and it is the margin itself when that
    lies in the range. *)
Theorem MarginBar_width_clamped (value : number) :
  is_nan value = false ->
  finite (MarginBar_width value)
  /\ 0 <= val (MarginBar_width value)
  /\ val (MarginBar_width value) <= 100
  /\ (finite value -> 0 <= val value -> val value <= 100 ->
      val (MarginBar_width value) == val value).
Proof.
  intros Hn. unfold MarginBar_width.
  destruct value as [| | | | q]; try discriminate.
  - (* +Infinity *)
    vm_compute. repeat split; intros; discriminate.
  - (* -Infinity *)
    vm_compute. repeat split; intros; discriminate.
  - (* -0 *)
    vm_compute. repeat split; intros; discriminate.
  - assert (Hmin : evals (Math_min (Fin 100) (Fin q)) (Qmin 100 q)).
    { unfold Math_min, ltb, val. simpl is_nan. simpl orb. cbv iota.
      destruct (Qlt_bool 100 q) eqn:E1.
      - apply Qlt_bool_iff in E1. split; [reflexivity |]. simpl.
        symmetry. apply Q.min_l. lra.
      - apply Qlt_bool_false_iff in E1.
        destruct (Qlt_bool q 100) eqn:E2.
        + split; [reflexivity |]. simpl. symmetry. now apply Q.min_r.
        + apply Qlt_bool_false_iff in E2. simpl sign.
          split; [reflexivity |]. simpl. symmetry. now apply Q.min_r. }
    destruct (evals_max (Fin 0) _ 0 _ (evals_Fin 0) Hmin) as [F V].
    split; [exact F |]. rewrite V.
    split; [apply Q.le_max_l |].
    split.
    + apply Q.max_lub; [discriminate | apply Q.le_min_l].
    + intros _ H0 H100. simpl val.
      rewrite (Q.min_r 100 q) by exact H100.
      now apply Q.max_r.
Qed.

Lemma MarginBar_width_clamped_witness :
  finite (MarginBar_width (Fin 250))
  /\ 0 <= val (MarginBar_width (Fin 250))
  /\ val (MarginBar_width (Fin 250)) <= 100.
Proof.
  destruct (MarginBar_width_clamped (Fin 250)) as [F [H0 [H100 _]]];
    [reflexivity |].
  split; [exact F |]. split; [exact H0 | exact H100].
Defined.

(** ** Growth columns of the historical chart *)

Lemma nth_error_combine_seq {A : Type} (l : list A) (start k : nat) :
  nth_error (combine (seq start (length l)) l) k
  = option_map (fun x => ((start + k)%nat, x)) (nth_error l k).
Proof.
  revert start k. induction l as [| x l IH]; intros start k.
  - destruct k; reflexivity.
  - destruct k as [| k]; simpl.
    + now rewrite Nat.add_0_r.
    + rewrite IH. now rewrite Nat.add_succ_r.
Qed.

(** X18.  The growth column has one entry per item; the first entry is
    null, and the entry of every later item is the growth from the item
    just before it. *)
Theorem growth_column_entries (column : list (option number)) :
  length (growth_column column) = length column
  /\ (column <> [] -> nth_error (growth_column column) 0 = Some None)
  /\ (forall k prev current,
        nth_error column k = Some prev ->
        nth_error column (S k) = Some current ->
        nth_error (growth_column column) (S k)
        = Some (growth (Some prev) current)).
Proof.
  unfold growth_column.
  split; [| split].
  - rewrite length_map, length_combine, length_seq. apply Nat.min_id.
  - intros Hne. rewrite nth_error_map, nth_error_combine_seq.
    destruct column as [| x l]; [congruence | reflexivity].
  - intros k prev current Hp Hc.
    rewrite nth_error_map, nth_error_combine_seq, Hc. simpl.
    now rewrite Hp.
Qed.

(** X19.  The growth from a previous figure that is missing, zero or NaN
    is null.  From a finite non-zero previous figure [p] to a finite
    current figure [c] it is [(c - p) / p * 100], positive exactly when the
    figure rose if [p] is positive; and a missing current figure is read
    as 0, which gives a growth of -100. *)
Theorem growth_value (prev current : option number) :
  (truthy_opt prev = false -> growth (Some prev) current = None)
  /\ growth None current = None
  /\ (forall p,
        prev = Some p -> finite p -> truthy p = true ->
        finite_or_null current ->
        exists g,
          growth (Some prev) current = Some g
          /\ evals g ((valQ current - val p) / val p * 100)
          /\ (0 < val p -> (0 < val g <-> val p < valQ current))
          /\ (current = None -> val g == -100)).
Proof.
  split; [| split].
  - unfold growth. now intros ->.
  - reflexivity.
  - intros p -> Fp Tp Fc.
    pose proof (truthy_val_not_0 p Fp Tp) as Hp.
    unfold growth, truthy_opt, not_. rewrite Tp. simpl negb. cbv iota.
    eexists. split; [reflexivity |].
    assert (Ec : evals (to_number current) (valQ current)).
    { destruct current as [c |]; simpl in *;
        [now apply evals_val | apply evals_Fin]. }
    assert (Eg : evals
                   (mul (div (sub (to_number current) (to_number (Some p)))
                           (to_number (Some p))) (Fin 100))
                   ((valQ current - val p) / val p * 100)).
    { apply evals_mul; [| apply evals_Fin].
      apply evals_div; [| now apply evals_val | exact Hp].
      apply evals_sub; [exact Ec | now apply evals_val]. }
    split; [exact Eg |].
    destruct Eg as [_ Vg]. split.
    + intros Pp. rewrite Vg.
      assert (E : (valQ current - val p) / val p * 100
                  == (valQ current - val p) * (100 / val p))
        by (field; exact Hp).
      assert (P100 : 0 < 100 / val p).
      { apply Qlt_shift_div_l; [exact Pp | lra]. }
      rewrite E. split; intros H; nra.
    + intros ->. rewrite Vg. simpl valQ. field. exact Hp.
Qed.

(** Revenue 200 after 160 is a growth of 25; a missing revenue after 160 is
    a growth of -100. *)
Lemma growth_value_witness :
  exists g,
    growth (Some (Some (Fin 160))) None = Some g
    /\ evals g ((valQ None - val (Fin 160)) / val (Fin 160) * 100)
    /\ (0 < val (Fin 160) -> (0 < val g <-> val (Fin 160) < valQ None))
    /\ ((None : option number) = None -> val g == -100).
Proof.
  destruct (growth_value (Some (Fin 160)) None) as [_ [_ H]].
  apply (H (Fin 160)); reflexivity.
Defined.

Example growth_column_example :
  map (option_map (fun g => Qred (val g)))
    (growth_column [Some (Fin 160); Some (Fin 200); None; Some (Fin 50)])
  = [None; Some 25; Some (-100); None].
Proof. reflexivity. Qed.

(** ** What the provider hands to the engine *)

Import YahooFinanceProvider.

Lemma num_finite (v : raw) : finite_or_null (num v).
Proof.
  destruct v as [x |]; simpl; [| exact I].
  destruct (is_finite x) eqn:E; [exact E | exact I].
Qed.

Lemma pct_finite (v : raw) : finite_or_null (pct v).
Proof.
  unfold pct. pose proof (num_finite v) as H.
  destruct (num v) as [n |]; simpl; [| exact I].
  apply fin_mul; [exact H | reflexivity].
Qed.

Lemma orelse_opt_finite (a b : option number) :
  finite_or_null a -> finite_or_null b -> finite_or_null (orelse_opt a b).
Proof. destruct a; simpl; auto. Qed.

Lemma getFinancialMetrics_body
    (stats : option DefaultKeyStatistics) (fin : option FinancialData)
    (detail : option SummaryDetail) (m : FinancialMetrics) :
  getFinancialMetrics stats fin detail = Some m ->
  m = {| peRatio := num (field detail detail_trailingPE);
         forwardPE := num (field detail detail_forwardPE);
         pegRatio := num (field stats stats_pegRatio);
         priceToSales :=
           num (field detail detail_priceToSalesTrailing12Months);
         priceToBook := num (field stats stats_priceToBook);
         evToEbitda := num (field stats stats_enterpriseToEbitda);
         evToEbit := None;
         evToRevenue := num (field stats stats_enterpriseToRevenue);
         grossMargin := pct (field fin fin_grossMargins);
         operatingMargin := pct (field fin fin_operatingMargins);
         netMargin := pct (field fin fin_profitMargins);
         roe := pct (field fin fin_returnOnEquity);
         roa := pct (field fin fin_returnOnAssets);
         revenue := num (field fin fin_totalRevenue);
         netIncome :=
           orelse_opt (num (field fin fin_netIncomeToCommon))
                      (num (field stats stats_netIncomeToCommon));
         ebitda := num (field fin fin_ebitda);
         ebit :=
           match num (field fin fin_totalRevenue),
                 num (field fin fin_operatingMargins) with
           | Some r, Some mg => Some (mul r mg)
           | _, _ => None
           end;
         eps := num (field stats stats_trailingEps);
         freeCashFlow := num (field fin fin_freeCashflow);
         totalCash := num (field fin fin_totalCash);
         totalDebt := num (field fin fin_totalDebt);
         netDebt :=
           match num (field fin fin_totalDebt),
                 num (field fin fin_totalCash) with
           | Some debt, Some cash => Some (sub debt cash)
           | _, _ => None
           end;
         sharesOutstanding := num (field stats stats_sharesOutstanding);
         enterpriseValue := num (field stats stats_enterpriseValue) |}.
Proof.
  intros Hm. unfold getFinancialMetrics in Hm.
  destruct stats, fin; try discriminate; now injection Hm as <-.
Qed.

Lemma getFinancialMetrics_finite_metrics
    (stats : option DefaultKeyStatistics) (fin : option FinancialData)
    (detail : option SummaryDetail) (m : FinancialMetrics) :
  getFinancialMetrics stats fin detail = Some m -> finite_metrics m.
Proof.
  intros Hm. apply getFinancialMetrics_body in Hm. subst m.
  unfold finite_metrics. cbn -[num pct field].
  repeat constructor;
    try apply num_finite; try apply pct_finite;
    try (apply orelse_opt_finite; apply num_finite).
  - pose proof (num_finite (field fin fin_totalRevenue)) as H1.
    pose proof (num_finite (field fin fin_operatingMargins)) as H2.
    destruct (num (field fin fin_totalRevenue)),
             (num (field fin fin_operatingMargins)); simpl; auto.
    now apply fin_mul.
  - pose proof (num_finite (field fin fin_totalDebt)) as H1.
    pose proof (num_finite (field fin fin_totalCash)) as H2.
    destruct (num (field fin fin_totalDebt)),
             (num (field fin fin_totalCash)); simpl; auto.
    now apply fin_sub.
Qed.

(** X20.  Whatever the upstream response holds (NaN, infinities, strings,
    missing sections), every field of the snapshot the provider builds is
    null or a finite number; no snapshot is built only when both the
    statistics and the financial-data sections are missing; EV/EBIT is never
    taken from upstream; and net debt, when present, is total debt minus
    total cash.  (In exact arithmetic: the overflow of a product is not
    modelled.) *)
Theorem getFinancialMetrics_finite
    (stats : option DefaultKeyStatistics) (fin : option FinancialData)
    (detail : option SummaryDetail) :
  (getFinancialMetrics stats fin detail = None
   <-> stats = None /\ fin = None)
  /\ (forall m,
        getFinancialMetrics stats fin detail = Some m ->
        finite_metrics m
        /\ evToEbit m = None
        /\ (forall d, netDebt m = Some d ->
              exists debt cash,
                totalDebt m = Some debt /\ totalCash m = Some cash
                /\ d = sub debt cash)).
Proof.
  split.
  - unfold getFinancialMetrics.
    destruct stats, fin; split; try discriminate; try tauto;
      intros [H1 H2]; discriminate.
  - intros m Hm.
    split; [now apply (getFinancialMetrics_finite_metrics stats fin detail) |].
    apply getFinancialMetrics_body in Hm. subst m. cbn -[num pct field].
    split; [reflexivity |].
    intros d Hd.
    destruct (num (field fin fin_totalDebt)) as [debt |];
      [| discriminate].
    destruct (num (field fin fin_totalCash)) as [cash |];
      [| discriminate].
    exists debt, cash. injection Hd as <-. repeat split.
Qed.

Lemma getFinancialMetrics_finite_witness :
  exists m,
    getFinancialMetrics (Some response_stats) (Some response_fin) None
    = Some m
    /\ finite_metrics m
    /\ evToEbit m = None.
Proof.
  destruct (getFinancialMetrics_finite (Some response_stats)
              (Some response_fin) None) as [_ H].
  eexists. split; [reflexivity |].
  destruct (H _ eq_refl) as [Hf [He _]]. split; [exact Hf | exact He].
Defined.

Lemma finite_metrics_fields (m : FinancialMetrics) :
  finite_metrics m ->
  forall x,
    In x [peRatio m; evToEbitda m; evToEbit m; evToRevenue m; netMargin m;
          revenue m; ebitda m; ebit m; freeCashFlow m; netDebt m;
          sharesOutstanding m; enterpriseValue m] ->
    finite_or_null x.
Proof.
  intros H x Hx. apply (proj1 (Forall_forall _ _) H).
  simpl in *. intuition.
Qed.

Lemma ratio_or_finite (a b fallback : option number) :
  finite_or_null a -> finite_or_null b -> finite_or_null fallback ->
  finite_or_null (ratio_or a b fallback).
Proof.
  intros Fa Fb Ff. unfold ratio_or.
  destruct (truthy_opt a && truthy_opt b) eqn:E; [| exact Ff].
  apply andb_true_iff in E. destruct E as [Ta Tb].
  destruct a as [x |], b as [y |]; try discriminate.
  unfold truthy_opt, not_ in Ta, Tb. rewrite negb_involutive in Ta, Tb.
  simpl. apply fin_div; [exact Fa | exact Fb | now apply truthy_not_zero].
Qed.

Lemma currentMultiples_finite (m : FinancialMetrics)
    (marketCap : option number) (type : MultipleType) :
  finite_metrics m -> finite_or_null marketCap ->
  finite (currentMultiples m marketCap type).
Proof.
  intros Hm Hc.
  pose proof (finite_metrics_fields m Hm) as F.
  assert (Fev : finite_or_null (ev m marketCap)).
  { unfold ev.
    pose proof (F (enterpriseValue m)) as He.
    destruct (enterpriseValue m); [apply He; simpl; tauto |].
    pose proof (F (netDebt m)) as Hd.
    destruct marketCap as [cap |], (netDebt m) as [debt |]; simpl; auto.
    apply fin_add; [exact Hc | apply Hd; simpl; tauto]. }
  unfold currentMultiples, computedEvToEbit, computedEvToEbitda,
    computedEvToRevenue, computedEvToFcf.
  destruct type; apply fin_or_else; try reflexivity;
    try apply ratio_or_finite; try exact Fev; try exact I;
    apply F; simpl; tauto.
Qed.

(** X21.  End to end, in exact arithmetic: for every snapshot the provider
    builds and every finite (or missing) market capitalisation, the
    projections of the initial assumptions, and of the assumptions after
    any methodology selection, have only prices that are >= 0: never NaN
    and never negative.  (No intermediate result overflows here; on
    doubles a revenue near the largest double can overflow to an infinity
    and a product of it with 0 is NaN.) *)
Theorem provider_projections_nonneg
    (pow_real : number -> number -> number)
    (stats : option DefaultKeyStatistics) (fin : option FinancialData)
    (detail : option SummaryDetail) (m : FinancialMetrics)
    (marketCap : option number) (type : MultipleType) (currentYear : Z) :
  getFinancialMetrics stats fin detail = Some m ->
  finite_or_null marketCap ->
  let priced a :=
    Forall (fun p =>
              nonneg (bearCase p) /\ nonneg (baseCase p)
              /\ nonneg (bullCase p))
      (calculateProjections pow_real m a currentYear) in
  priced (PricePredictor.initialAssumptions m)
  /\ priced (selectMethodology m marketCap type
               (PricePredictor.initialAssumptions m)).
Proof.
  intros Hm Hc priced. subst priced.
  pose proof (getFinancialMetrics_finite_metrics stats fin detail m Hm)
    as Fm.
  pose proof (finite_metrics_fields m Fm) as F.
  assert (Fnm : finite_or_null (netMargin m)) by (apply F; simpl; tauto).
  assert (Fcm : finite (PricePredictor.currentMargin m)).
  { unfold PricePredictor.currentMargin.
    destruct (netMargin m); [exact Fnm | reflexivity]. }
  assert (Fsp : finite (PricePredictor.marginSpread m)).
  { unfold PricePredictor.marginSpread. auto with fin. }
  assert (Fpe : finite (or_else (peRatio m) (Fin 20))).
  { apply fin_or_else; [apply F; simpl; tauto | reflexivity]. }
  pose proof (currentMultiples_finite m marketCap type Fm Hc) as Fcur.
  split; apply calculateProjections_nonneg;
    try (apply F; simpl; tauto);
    try (simpl; discriminate);
    (repeat split; simpl; auto with fin).
Qed.

Lemma provider_projections_nonneg_witness :
  exists m,
    getFinancialMetrics (Some response_stats) (Some response_fin) None
    = Some m
    /\ Forall (fun p =>
                 nonneg (bearCase p) /\ nonneg (baseCase p)
                 /\ nonneg (bullCase p))
         (calculateProjections (fun _ _ => NaN) m
            (selectMethodology m (Some (Fin 4800)) evEbit
               (PricePredictor.initialAssumptions m)) 2024).
Proof.
  eexists. split; [reflexivity |].
  apply (provider_projections_nonneg (fun _ _ => NaN)
           (Some response_stats) (Some response_fin) None _
           (Some (Fin 4800)) evEbit 2024 eq_refl).
  reflexivity.
Defined.

(** ** Horizon and loss-making companies *)

(** X22.  The price of a projected year does not depend on the horizon:
    the projections over [n] years are the first [n] records of the
    projections over any longer horizon. *)
Theorem calculateProjections_prefix
    (pow_real : number -> number -> number)
    (metrics : FinancialMetrics) (a : ProjectionAssumptions)
    (currentYear : Z) (n k : nat) :
  firstn n
    (calculateProjections pow_real metrics (with_years (n + k) a)
       currentYear)
  = calculateProjections pow_real metrics (with_years n a) currentYear.
Proof.
  rewrite !calculateProjections_map. cbn [years with_years].
  rewrite firstn_map, seq_app, firstn_app, length_seq.
  rewrite Nat.sub_diag, firstn_O, app_nil_r.
  rewrite firstn_all2 by (rewrite length_seq; lia).
  apply map_ext. intros i. reflexivity.
Qed.

Lemma Qmax0_nonpos (e : Q) : e <= 0 -> Qmax 0 e == 0.
Proof. intros H. now apply Q.max_l. Qed.

(** Under pe a margin that is not positive gives the price 0, for a
    non-negative revenue and multiple and a positive share count. *)
Lemma pe_price_zero
    (pow_real : number -> number -> number)
    (R S G M X D : number) (i : nat) (metrics : FinancialMetrics) :
  finite R -> finite S -> finite G -> finite M -> finite X -> finite D ->
  0 <= val R -> 0 < val S -> -100 < val G -> val M <= 0 -> 0 <= val X ->
  -100 < val D ->
  is_zero
    (calculateScenarioPrice pow_real R S (div G (Fin 100))
       (div M (Fin 100)) X (div D (Fin 100)) (of_nat i) pe metrics)
  = true.
Proof.
  intros FR FS FG FM FX FD HR HS HG HM HX HD.
  assert (HS' : ~ val S == 0) by lra.
  pose proof (one_plus_percent_pos (val D) HD) as PD.
  pose proof (one_plus_percent_pos (val G) HG) as PG.
  assert (HD' : ~ 1 + val (div D (Fin 100)) == 0).
  { rewrite (val_percent D FD). lra. }
  change (calculateScenarioPrice pow_real R S (div G (Fin 100))
            (div M (Fin 100)) X (div D (Fin 100)) (of_nat i) pe metrics)
    with (calculateScenarioPrice pow_real R S (div G (Fin 100))
            (div M (Fin 100)) X (div D (Fin 100)) (of_nat i) pe
            metrics_unknown).
  destruct (calculateScenarioPrice_evals pow_real R S (div M (Fin 100)) X
              pe metrics_unknown FR FS (fin_percent M FM) FX I
              (div G (Fin 100)) (div D (Fin 100)) i
              (fin_percent G FG) (fin_percent D FD) HS' HD') as [F V].
  apply (is_zero_val _ F). rewrite V. simpl equityQ.
  rewrite !val_percent by assumption.
  apply Qmax0_nonpos.
  apply Qle_shift_div_r.
  - apply Qmult_lt_0_compat; [exact HS |]. now apply Qpower_0_lt.
  - rewrite Qmult_0_l.
    assert (P : 0 <= val R * (1 + val G / 100) ^ Z.of_nat i).
    { apply Qmult_le_0_compat; [exact HR |].
      apply Qlt_le_weak. now apply Qpower_0_lt. }
    assert (N : val M / 100 <= 0).
    { unfold Qdiv. change (/ 100) with (1 # 100). lra. }
    assert (P' : 0 <= val R * (1 + val G / 100) ^ Z.of_nat i * val X)
      by (now apply Qmult_le_0_compat).
    assert (E : val R * (1 + val G / 100) ^ Z.of_nat i * (val M / 100)
                * val X
                == val R * (1 + val G / 100) ^ Z.of_nat i * val X
                   * (val M / 100)) by ring.
    rewrite E.
    set (u := val R * (1 + val G / 100) ^ Z.of_nat i * val X) in *.
    set (w := val M / 100) in *.
    nra.
Qed.

Lemma impliedReturns_zero_prices
    (pow_real : number -> number -> number)
    (currentPrice : number) (metrics : FinancialMetrics)
    (a : ProjectionAssumptions) (currentYear : Z) :
  let zeros := {| bear := Fin 0; base := Fin 0; bull := Fin 0 |} in
  let final :=
    projection_at pow_real metrics a currentYear
      (or_else (revenue metrics) (Fin 0))
      (or_else (sharesOutstanding metrics) (Fin 1)) (years a) in
  (years a = O ->
   impliedReturns pow_real currentPrice metrics a currentYear = zeros)
  /\ ((1 <= years a)%nat ->
      is_zero (bearCase final) = true /\ is_zero (baseCase final) = true
      /\ is_zero (bullCase final) = true ->
      impliedReturns pow_real currentPrice metrics a currentYear = zeros).
Proof.
  intros zeros final. subst zeros final. unfold impliedReturns.
  rewrite finalYear_calculateProjections.
  destruct (years a) as [| n].
  - split; [reflexivity | intros H; lia].
  - split; [discriminate |].
    intros _ [Hb [Hm Hu]].
    assert (Hzero : forall price,
               is_zero price = true ->
               calculateCAGR pow_real (Some currentPrice) (Some price)
                 (of_nat (S n)) = None).
    { intros price Hz. unfold calculateCAGR, not_, truthy.
      rewrite Hz. simpl. now rewrite !orb_true_r. }
    now rewrite (Hzero _ Hb), (Hzero _ Hm), (Hzero _ Hu).
Qed.

(** X23.  A loss-making company under pe, in exact arithmetic: when no
    target margin is positive (and revenue, share count and exit multiples
    are not negative, growth and dilution above -100%), every projected
    price is 0 and the three implied returns are shown as 0.  (No
    intermediate result overflows here; on doubles a compounded revenue
    that overflows, multiplied by a margin or multiple of 0, is NaN.) *)
Theorem loss_making_projections
    (pow_real : number -> number -> number)
    (currentPrice : number) (metrics : FinancialMetrics)
    (a : ProjectionAssumptions) (currentYear : Z) :
  multipleType a = pe ->
  finite_or_null (revenue metrics) ->
  finite_or_null (sharesOutstanding metrics) ->
  finite_assumptions a ->
  0 <= valQ (revenue metrics) -> 0 <= valQ (sharesOutstanding metrics) ->
  -100 < val (dilutionRate a) ->
  (forall key,
      -100 < val (get_scenario key (revenueGrowth a))
      /\ val (get_scenario key (targetMargin a)) <= 0
      /\ 0 <= val (get_scenario key (exitMultiple a))) ->
  Forall (fun p =>
            is_zero (bearCase p) = true /\ is_zero (baseCase p) = true
            /\ is_zero (bullCase p) = true)
    (calculateProjections pow_real metrics a currentYear)
  /\ impliedReturns pow_real currentPrice metrics a currentYear
     = {| bear := Fin 0; base := Fin 0; bull := Fin 0 |}.
Proof.
  intros Hpe Fr Fs [[Fg1 [Fg2 Fg3]] [[Fm1 [Fm2 Fm3]] [[Fx1 [Fx2 Fx3]] Fd]]]
    Hr Hs Hd Hk.
  destruct (evals_or_else_0 _ Fr) as [FR VR].
  destruct (shares_floor_evals _ Fs) as [FS NS].
  assert (PS : 0 < val (or_else (sharesOutstanding metrics) (Fin 1))).
  { destruct (sharesOutstanding metrics) as [v |]; simpl in *;
      [| reflexivity].
    destruct (truthy v); simpl in *; [lra | reflexivity]. }
  assert (PR : 0 <= val (or_else (revenue metrics) (Fin 0)))
    by (rewrite VR; exact Hr).
  destruct (Hk Bear) as [Gb [Mb Xb]].
  destruct (Hk Base) as [Gm [Mm Xm]].
  destruct (Hk Bull) as [Gu [Mu Xu]].
  simpl in Gb, Mb, Xb, Gm, Mm, Xm, Gu, Mu, Xu.
  assert (Hrec : forall i,
             let p := projection_at pow_real metrics a currentYear
                        (or_else (revenue metrics) (Fin 0))
                        (or_else (sharesOutstanding metrics) (Fin 1)) i in
             is_zero (bearCase p) = true /\ is_zero (baseCase p) = true
             /\ is_zero (bullCase p) = true).
  { intros i. unfold projection_at. rewrite Hpe. simpl.
    repeat split; apply pe_price_zero; assumption. }
  split.
  - rewrite calculateProjections_map.
    apply Forall_map, Forall_forall. intros i _. apply Hrec.
  - destruct (impliedReturns_zero_prices pow_real currentPrice metrics a
                currentYear) as [H0 H1].
    destruct (years a) as [| n] eqn:E; [now apply H0 |].
    apply H1; [lia |]. rewrite <- E. apply Hrec.
Qed.

Lemma loss_making_projections_witness :
  impliedReturns (fun _ _ => NaN) (Fin 50) metrics_sample_a
    assumptions_all_losses 2024
  = {| bear := Fin 0; base := Fin 0; bull := Fin 0 |}.
Proof.
  apply (loss_making_projections (fun _ _ => NaN) (Fin 50) metrics_sample_a
           assumptions_all_losses 2024);
    try reflexivity; try (vm_compute; discriminate).
  - vm_compute. tauto.
  - intros key. destruct key; vm_compute; repeat split; discriminate.
Defined.

(** ** The clamp *)

Lemma max0_never_negative (p : number) :
  never_negative (Math_max (Fin 0) p)
  /\ (is_nan (Math_max (Fin 0) p) = true <-> is_nan p = true).
Proof.
  unfold never_negative, nonneg, Math_max.
  destruct p as [| | | | q]; simpl; try (repeat split; auto; discriminate).
  destruct (Qlt_bool 0 q) eqn:E; simpl.
  - apply Qlt_bool_iff in E. unfold Qlt_bool.
    assert (H1 : Qle_bool 0 q = true) by (apply Qle_bool_iff; lra).
    rewrite H1. simpl. repeat split; auto; discriminate.
  - destruct (Qlt_bool q 0); simpl; repeat split; auto; discriminate.
Qed.

(** X24.  Whatever the arguments are (NaN, infinities, a zero share count,
    any year), a price is never negative: the results of
    [calculateFairValuePrice] and [calculateScenarioPrice], and every price
    of every record of [calculateProjections], have a clear sign bit, are
    not below 0, and are NaN or [>= 0] (an infinity included).  A negative
    equity value is clamped to the positive zero. *)
Theorem prices_never_negative :
  (forall revenue shares m x methodology metrics,
      never_negative
        (calculateFairValuePrice revenue shares m x methodology metrics))
  /\ (forall pow_real revenue shares g m x d years methodology metrics,
        never_negative
          (calculateScenarioPrice pow_real revenue shares g m x d years
             methodology metrics))
  /\ (forall pow_real metrics assumptions currentYear,
        Forall (fun p =>
                  never_negative (bearCase p)
                  /\ never_negative (baseCase p)
                  /\ never_negative (bullCase p))
          (calculateProjections pow_real metrics assumptions currentYear)).
Proof.
  assert (Hscenario :
            forall pow_real revenue shares g m x d years methodology metrics,
              never_negative
                (calculateScenarioPrice pow_real revenue shares g m x d years
                   methodology metrics)).
  { intros. unfold calculateScenarioPrice.
    destruct methodology; apply max0_never_negative. }
  split; [| split; [exact Hscenario |]].
  - intros. unfold calculateFairValuePrice.
    destruct methodology; apply max0_never_negative.
  - intros pow_real metrics assumptions currentYear.
    rewrite calculateProjections_map.
    apply Forall_map, Forall_forall. intros i _.
    unfold projection_at. simpl. repeat split; apply Hscenario.
Qed.

(** A negative equity value gives the price 0, a division by a zero share
    count an infinite price, and 0/0 the price NaN. *)
Example prices_never_negative_example :
  calculateFairValuePrice (Fin 1000) (Fin 100) (Fin (-1 # 10)) (Fin 20)
    pe metrics_unknown = Fin 0
  /\ calculateFairValuePrice (Fin 1000) (Fin 0) (Fin (1 # 10)) (Fin 20)
       pe metrics_unknown = PInf
  /\ calculateFairValuePrice (Fin 0) (Fin 0) (Fin (1 # 10)) (Fin 20)
       pe metrics_unknown = NaN.
Proof. repeat split. Qed.
